(** * Agentic Video Styler: the [Processor] component

    A shallow embedding of [src/components/Processor.tsx].  The component
    keeps seven pieces of React state, offers a catalog of four styles and,
    when the user presses the button, drives an external video engine
    through four awaited calls.  The engine itself ([../lib/ffmpeg]) is an
    opaque collaborator: its calls are events of a small task monad, and an
    arbitrary [World] answers them. *)

From Stdlib Require Import List String Ascii Bool Arith Lia.
Import ListNotations.
Open Scope string_scope.
Open Scope list_scope.

(** ** Strings: the test [/frame=/.test(m)] *)

(** The regular expression [/frame=/] has no metacharacter and no flag, so
    [test] answers whether the subject contains the six characters. *)
Fixpoint includes (needle s : string) : bool :=
  match s with
  | EmptyString => prefix needle EmptyString
  | String _ rest => prefix needle s || includes needle rest
  end.

(** ** Data *)

(** [StyleKey] is imported from [../lib/ffmpeg]; the catalog and the
    comparisons in [process] use these four keys. *)
Inductive StyleKey : Type := cinematic | action | aesthetic | realistic.

Definition StyleKey_eqb (a b : StyleKey) : bool :=
  match a, b with
  | cinematic, cinematic | action, action
  | aesthetic, aesthetic | realistic, realistic => true
  | _, _ => false
  end.

Definition StyleKey_text (k : StyleKey) : string :=
  match k with
  | cinematic => "cinematic"
  | action => "action"
  | aesthetic => "aesthetic"
  | realistic => "realistic"
  end.

(** Browser objects.  A [Blob] is its bytes, a [File] a named blob, the
    engine instance a handle. *)
Definition Blob : Type := string.
Record File : Type := mkFile { file_name : string; file_blob : Blob }.
Record FFmpeg : Type := mkFFmpeg { handle : nat }.

(** What [URL.createObjectURL] is given. *)
Inductive UrlSource : Type :=
| FromFile (f : File)
| FromBlob (b : Blob).

(** A thrown value, as far as [e?.message] looks at it. *)
Record JsError : Type := mkError { message : option string }.

(** The seven [useState] cells of [Processor]. *)
Record State : Type := mkState {
  file : option File;
  inputUrl : option string;
  outputUrl : option string;
  busy : bool;
  progressText : string;
  style : StyleKey;
  slowMo : bool
}.

(** The values given to [useState]. *)
Definition initial : State :=
  {| file := None; inputUrl := None; outputUrl := None; busy := false;
     progressText := ""; style := cinematic; slowMo := true |}.

(** The seven state setters. *)
Inductive Setter : Type :=
| setFile (v : option File)
| setInputUrl (v : option string)
| setOutputUrl (v : option string)
| setBusy (v : bool)
| setProgressText (v : string)
| setStyle (v : StyleKey)
| setSlowMo (v : bool).

Definition set_state (u : Setter) (s : State) : State :=
  match u with
  | setFile v =>
      mkState v (inputUrl s) (outputUrl s) (busy s) (progressText s) (style s) (slowMo s)
  | setInputUrl v =>
      mkState (file s) v (outputUrl s) (busy s) (progressText s) (style s) (slowMo s)
  | setOutputUrl v =>
      mkState (file s) (inputUrl s) v (busy s) (progressText s) (style s) (slowMo s)
  | setBusy v =>
      mkState (file s) (inputUrl s) (outputUrl s) v (progressText s) (style s) (slowMo s)
  | setProgressText v =>
      mkState (file s) (inputUrl s) (outputUrl s) (busy s) v (style s) (slowMo s)
  | setStyle v =>
      mkState (file s) (inputUrl s) (outputUrl s) (busy s) (progressText s) v (slowMo s)
  | setSlowMo v =>
      mkState (file s) (inputUrl s) (outputUrl s) (busy s) (progressText s) (style s) v
  end.

Definition set_all (us : list Setter) (s : State) : State :=
  fold_left (fun acc u => set_state u acc) us s.

(** ** The style catalog *)

Record StyleRecord : Type := mkStyle { key : StyleKey; name : string; desc : string }.

Definition STYLES : list StyleRecord :=
  [ mkStyle cinematic "Cinematic Hero" "Deep shadows, neon, slow-mo vibe";
    mkStyle action "Action Style" "Fast, punchy, sharpened, stabilized";
    mkStyle aesthetic "Aesthetic Smooth" "Pastel, creamy, dreamy glow";
    mkStyle realistic "Realistic Upgrade" "Clean, natural, 4K upscale" ].

(** ** Tasks: handlers as trees of effects *)

(** The awaited calls into [../lib/ffmpeg]. *)
Inductive Call : Type :=
| getFFmpeg (onLog : string -> list Setter)
| writeInputFile (ffmpeg : FFmpeg) (f : File) (target : string)
| ffmpeg_exec (ffmpeg : FFmpeg) (args : list string)
| readOutputFile (ffmpeg : FFmpeg) (source : string).

(** What the promise of a call resolves to. *)
Definition Resp (c : Call) : Type :=
  match c with
  | getFFmpeg _ => FFmpeg
  | writeInputFile _ _ _ => unit
  | ffmpeg_exec _ _ => unit
  | readOutputFile _ _ => Blob
  end.

(** A handler is a tree: it returns, throws, calls a setter, writes to the
    console, asks the browser for an object URL, or waits for a promise to
    settle ([inl] a rejection, [inr] the value). *)
Inductive Task (A : Type) : Type :=
| Ret (a : A)
| Throw (e : JsError)
| Upd (u : Setter) (k : Task A)
| ConsoleError (e : JsError) (k : Task A)
| ObjectURL (src : UrlSource) (k : string -> Task A)
| Await (c : Call) (k : JsError + Resp c -> Task A).

Arguments Ret {A} a.
Arguments Throw {A} e.
Arguments Upd {A} u k.
Arguments ConsoleError {A} e k.
Arguments ObjectURL {A} src k.
Arguments Await {A} c k.

Fixpoint bind {A B : Type} (t : Task A) (f : A -> Task B) : Task B :=
  match t with
  | Ret a => f a
  | Throw e => Throw e
  | Upd u k => Upd u (bind k f)
  | ConsoleError e k => ConsoleError e (bind k f)
  | ObjectURL src k => ObjectURL src (fun url => bind (k url) f)
  | Await c k => Await c (fun r => bind (k r) f)
  end.

(** [try { t } catch (e) { h e }] *)
Fixpoint try_catch {A : Type} (t : Task A) (h : JsError -> Task A) : Task A :=
  match t with
  | Ret a => Ret a
  | Throw e => h e
  | Upd u k => Upd u (try_catch k h)
  | ConsoleError e k => ConsoleError e (try_catch k h)
  | ObjectURL src k => ObjectURL src (fun url => try_catch (k url) h)
  | Await c k => Await c (fun r => try_catch (k r) h)
  end.

(** [try { t } finally { fin }]: [fin] runs on both exits, and the exit of
    [t] stands unless [fin] throws itself. *)
Fixpoint try_finally {A : Type} (t : Task A) (fin : Task unit) : Task A :=
  match t with
  | Ret a => bind fin (fun _ => Ret a)
  | Throw e => bind fin (fun _ => Throw e)
  | Upd u k => Upd u (try_finally k fin)
  | ConsoleError e k => ConsoleError e (try_finally k fin)
  | ObjectURL src k => ObjectURL src (fun url => try_finally (k url) fin)
  | Await c k => Await c (fun r => try_finally (k r) fin)
  end.

Definition call (u : Setter) : Task unit := Upd u (Ret tt).
Definition console_error (e : JsError) : Task unit := ConsoleError e (Ret tt).
Definition createObjectURL (src : UrlSource) : Task string := ObjectURL src Ret.

(** [await c]: a rejected promise throws at the [await]. *)
Definition await (c : Call) : Task (Resp c) :=
  Await c (fun r => match r with inl e => Throw e | inr v => Ret v end).

Declare Scope task_scope.
Delimit Scope task_scope with task.
Notation "x <- t ;; k" := (bind t (fun x => k))
  (at level 61, t at next level, right associativity) : task_scope.
Notation "t ;; k" := (bind t (fun _ => k))
  (at level 61, right associativity) : task_scope.
Open Scope task_scope.

(** ** The handlers of [Processor] *)

(** The logger handed to [getFFmpeg]. *)
Definition onLog (m : string) : list Setter :=
  if includes "frame=" m then [setProgressText m] else [].

(** [e?.message || "Unknown error"]: an absent or empty message is falsy. *)
Definition message_or_unknown (e : JsError) : string :=
  match message e with
  | Some (String c m) => String c m
  | Some EmptyString | None => "Unknown error"
  end.

Definition failure_text (e : JsError) : string :=
  "Failed: " ++ message_or_unknown e.

(** The four literal argument lists of the retry in [process]. *)
Definition retry_action : list string :=
  ["-i"; "input.mp4"; "-vf";
   "format=yuv420p,eq=contrast=1.3:saturation=1.15:gamma=0.92,unsharp=5:5:1.1";
   "-c:v"; "mpeg4"; "-q:v"; "5"; "-an"; "-movflags"; "+faststart"; "output.mp4"].

Definition retry_aesthetic : list string :=
  ["-i"; "input.mp4"; "-vf";
   "format=yuv420p,hqdn3d=1.5:1.5:6:6,eq=contrast=1.05:brightness=0.03:saturation=0.96";
   "-c:v"; "mpeg4"; "-q:v"; "5"; "-an"; "-movflags"; "+faststart"; "output.mp4"].

Definition retry_realistic : list string :=
  ["-i"; "input.mp4"; "-vf";
   "format=yuv420p,hqdn3d=1.0:1.0:4:4,eq=contrast=1.06:saturation=1.02,unsharp=3:3:0.6,scale=3840:-2:flags=lanczos";
   "-c:v"; "mpeg4"; "-q:v"; "5"; "-an"; "-movflags"; "+faststart"; "output.mp4"].

Definition retry_otherwise : list string :=
  ["-i"; "input.mp4"; "-vf";
   "format=yuv420p,eq=contrast=1.2:brightness=-0.03:saturation=1.08:gamma=0.95,curves=preset=medium_contrast,vignette=PI/6:0.5";
   "-c:v"; "mpeg4"; "-q:v"; "5"; "-an"; "-movflags"; "+faststart"; "output.mp4"].

(** The body of the inner [catch]: an [if]/[else if] chain on the style,
    one [exec] per branch. *)
Definition retry (ffmpeg : FFmpeg) (style : StyleKey) : Task unit :=
  if StyleKey_eqb style action then
    await (ffmpeg_exec ffmpeg retry_action)
  else if StyleKey_eqb style aesthetic then
    await (ffmpeg_exec ffmpeg retry_aesthetic)
  else if StyleKey_eqb style realistic then
    await (ffmpeg_exec ffmpeg retry_realistic)
  else
    await (ffmpeg_exec ffmpeg retry_otherwise).

(** The list the chain picks, as a table. *)
Definition fallbackArgs (style : StyleKey) : list string :=
  match style with
  | cinematic => retry_otherwise
  | action => retry_action
  | aesthetic => retry_aesthetic
  | realistic => retry_realistic
  end.

(** [onPickFile] *)
Definition onPickFile (f : File) : Task unit :=
  call (setFile (Some f)) ;;
  url <- createObjectURL (FromFile f) ;;
  call (setInputUrl (Some url)) ;;
  call (setOutputUrl None).

(** [onFileInput] and [onDrop]: the first file of the list, if there is
    one ([preventDefault] has no effect on the state). *)
Definition onFileInput (files : list File) : Task unit :=
  match files with
  | f :: _ => onPickFile f
  | [] => Ret tt
  end.

Definition onDrop (files : list File) : Task unit :=
  match files with
  | f :: _ => onPickFile f
  | [] => Ret tt
  end.

(** The [onClick] of the Clear button. *)
Definition onClear : Task unit :=
  call (setInputUrl None) ;; call (setFile None) ;; call (setOutputUrl None).

(** [isReady] *)
Definition isReady (s : State) : bool :=
  match file s with Some _ => true | None => false end && negb (busy s).

(** ** What [Processor] renders *)

(** [x && ...] and [x || undefined] on a [string | null]: [null] and the
    empty string are falsy. *)
Definition truthy (x : option string) : option string :=
  match x with
  | Some (String c rest) => Some (String c rest)
  | Some EmptyString | None => None
  end.

Record Radio : Type := mkRadio {
  radio_value : StyleKey;
  radio_name : string;
  radio_desc : string;
  radio_checked : bool
}.

(** The parts of the returned JSX that depend on the state: [None] and
    [false] stand for an element that is not rendered. *)
Record View : Type := mkView {
  fileNamePill : option string;
  radios : list Radio;
  slowMoCheckbox : option bool;
  processDisabled : bool;
  processLabel : string;
  downloadLink : option (string * string);
  clearButton : bool;
  progressLine : option string;
  inputPreview : option string;
  outputPreview : option string
}.

Definition view (s : State) : View :=
  {| fileNamePill := option_map file_name (file s);
     radios :=
       map (fun r => mkRadio (key r) (name r) (desc r) (StyleKey_eqb (style s) (key r)))
           STYLES;
     slowMoCheckbox :=
       if StyleKey_eqb (style s) cinematic then Some (slowMo s) else None;
     processDisabled := negb (isReady s);
     processLabel := if busy s then "Processing..." else "Process Video";
     downloadLink :=
       option_map (fun href => (href, ("styled-" ++ StyleKey_text (style s) ++ ".mp4")%string))
                  (truthy (outputUrl s));
     clearButton := match truthy (inputUrl s) with Some _ => true | None => false end;
     progressLine := if busy s then Some (progressText s) else None;
     inputPreview := truthy (inputUrl s);
     outputPreview := truthy (outputUrl s) |}.

Section Process.

(** [buildArgs] lives in [../lib/ffmpeg], which is not part of the sources
    at hand: the development is parametric in it. *)
Variable buildArgs : StyleKey -> bool -> list string.

(** [process], closed over the [file], [style] and [slowMo] of the render
    that created it. *)
Definition process (file : option File) (style : StyleKey) (slowMo : bool)
  : Task unit :=
  match file with
  | None => Ret tt
  | Some f =>
    call (setBusy true) ;;
    call (setProgressText "Loading ffmpeg...") ;;
    try_finally
      (try_catch
         (ffmpeg <- await (getFFmpeg onLog) ;;
          call (setProgressText "Preparing input...") ;;
          await (writeInputFile ffmpeg f "input.mp4") ;;
          call (setProgressText "Applying style...") ;;
          let args := buildArgs style slowMo in
          try_catch
            (await (ffmpeg_exec ffmpeg args))
            (fun _ => retry ffmpeg style) ;;
          call (setProgressText "Exporting...") ;;
          blob <- await (readOutputFile ffmpeg "output.mp4") ;;
          url <- createObjectURL (FromBlob blob) ;;
          call (setOutputUrl (Some url)) ;;
          call (setProgressText "Done"))
         (fun e =>
            console_error e ;;
            call (setProgressText (failure_text e))))
      (call (setBusy false))
  end.

(** The closure a render in state [s] hands to the button. *)
Definition process_of (s : State) : Task unit :=
  process (file s) (style s) (slowMo s).

End Process.

(** ** Running a task against the outside world *)

(** What a run leaves behind, in order. *)
Inductive Event : Type :=
| ESet (u : Setter)
| EConsole (e : JsError)
| EUrl (src : UrlSource) (url : string)
| ECall (c : Call) (logs : list string) (r : JsError + Resp c).

(** The engine and the browser: any state, any answer.  A call settles with
    the log lines the engine emitted while it was pending and with a
    rejection or a value. *)
Record World : Type := mkWorld {
  wstate : Type;
  settle : forall c : Call, wstate -> list string * (JsError + Resp c) * wstate;
  mint : UrlSource -> wstate -> string * wstate
}.

(** Log lines go to the logger that was handed to [getFFmpeg]. *)
Definition deliver (logger : string -> list Setter) (logs : list string)
  (s : State) : State :=
  fold_left (fun acc m => set_all (logger m) acc) logs s.

Definition no_logger (m : string) : list Setter := [].

Definition logger_after (c : Call) (logger : string -> list Setter)
  : string -> list Setter :=
  match c with
  | getFFmpeg given => given
  | _ => logger
  end.

Record Outcome (A : Type) : Type := mkOutcome {
  final : State;
  result : JsError + A;
  trace : list Event
}.

Arguments mkOutcome {A} final result trace.
Arguments final {A} o.
Arguments result {A} o.
Arguments trace {A} o.

Definition emit {A : Type} (ev : Event) (o : Outcome A) : Outcome A :=
  mkOutcome (final o) (result o) (ev :: trace o).

Fixpoint run (W : World) {A : Type} (t : Task A)
  (logger : string -> list Setter) (s : State) (w : wstate W) : Outcome A :=
  match t with
  | Ret a => mkOutcome s (inr a) []
  | Throw e => mkOutcome s (inl e) []
  | Upd u k => emit (ESet u) (run W k logger (set_state u s) w)
  | ConsoleError e k => emit (EConsole e) (run W k logger s w)
  | ObjectURL src k =>
      let (url, w') := mint W src w in
      emit (EUrl src url) (run W (k url) logger s w')
  | Await c k =>
      let '(logs, r, w') := settle W c w in
      let logger' := logger_after c logger in
      emit (ECall c logs r) (run W (k r) logger' (deliver logger' logs s) w')
  end.

(** The [exec] calls of a trace: the argument list and how the call settled. *)
Fixpoint exec_calls (tr : list Event) : list (list string * (JsError + unit)) :=
  match tr with
  | [] => []
  | ECall (ffmpeg_exec _ args) _ r :: rest => (args, r) :: exec_calls rest
  | _ :: rest => exec_calls rest
  end.

(** How many calls of any kind went to the engine. *)
Fixpoint engine_calls (tr : list Event) : nat :=
  match tr with
  | [] => 0
  | ECall _ _ _ :: rest => S (engine_calls rest)
  | _ :: rest => engine_calls rest
  end.

(** The texts given to [setProgressText], in order. *)
Fixpoint progress_texts (tr : list Event) : list string :=
  match tr with
  | [] => []
  | ESet (setProgressText m) :: rest => m :: progress_texts rest
  | _ :: rest => progress_texts rest
  end.

(** The values given to [setBusy], in order. *)
Fixpoint busy_writes (tr : list Event) : list bool :=
  match tr with
  | [] => []
  | ESet (setBusy b) :: rest => b :: busy_writes rest
  | _ :: rest => busy_writes rest
  end.

(** Whether a trace holds a [writeInputFile] that resolved. *)
Fixpoint input_written (tr : list Event) : bool :=
  match tr with
  | [] => false
  | ECall (writeInputFile _ _ _) _ (inr _) :: _ => true
  | _ :: rest => input_written rest
  end.

(** The argument list of the first [exec] of a trace. *)
Definition primary_args (tr : list Event) : option (list string) :=
  hd_error (map fst (exec_calls tr)).

(** A message mentions a frame when ["frame="] occurs in it. *)
Definition mentions_frame (m : string) : Prop :=
  exists before after, m = (before ++ "frame=" ++ after)%string.

(** ** The page as a transition system *)

(** Between two awaits a handler runs without interruption: [advance]
    performs its setters, console writes and object-URL requests up to the
    next [await] (or to its end) and returns what is left of it.  React
    renders once the segment is over, with all its updates applied, so the
    pages a user sees are the states between segments. *)
Fixpoint advance {A : Type} (url : string) (t : Task A) (s : State)
  : State * list Event * Task A :=
  match t with
  | Upd u k =>
      let '(s', evs, t') := advance url k (set_state u s) in
      (s', ESet u :: evs, t')
  | ConsoleError e k =>
      let '(s', evs, t') := advance url k s in
      (s', EConsole e :: evs, t')
  | ObjectURL src k =>
      let '(s', evs, t') := advance url (k url) s in
      (s', EUrl src url :: evs, t')
  | Ret _ | Throw _ | Await _ _ => (s, [], t)
  end.

(** A handler that is waiting for the engine, with the file its closure
    captured. *)
Record Run : Type := mkRun { run_file : option File; run_task : Task unit }.

(** The page: the React state, the handlers waiting on a promise, the
    loggers the engine was given, and (as a ghost) the file whose run wrote
    the output URL on display. *)
Record Sys : Type := mkSys {
  ui : State;
  in_flight : list Run;
  loggers : list (string -> list Setter);
  output_of : option File
}.

Definition boot : Sys :=
  {| ui := initial; in_flight := []; loggers := []; output_of := None |}.

Definition suspended (origin : option File) (t : Task unit) : list Run :=
  match t with
  | Await _ _ => [mkRun origin t]
  | _ => []
  end.

Definition registered (t : Task unit) : list (string -> list Setter) :=
  match t with
  | Await (getFFmpeg logger) _ => [logger]
  | _ => []
  end.

(** The ghost follows the writes to [outputUrl]. *)
Fixpoint track (origin : option File) (evs : list Event) (g : option File)
  : option File :=
  match evs with
  | [] => g
  | ESet (setOutputUrl (Some _)) :: rest => track origin rest origin
  | ESet (setOutputUrl None) :: rest => track origin rest None
  | _ :: rest => track origin rest g
  end.

(** Start or resume a handler: run it to its next await. *)
Definition launch (origin : option File) (t : Task unit) (url : string)
  (sys : Sys) : Sys :=
  let '(s', evs, t') := advance url t (ui sys) in
  {| ui := s';
     in_flight := in_flight sys ++ suspended origin t';
     loggers := loggers sys ++ registered t';
     output_of := track origin evs (output_of sys) |}.

(** How the engine may settle a pending call. *)
Inductive Answer : Type :=
| Rejects (e : JsError)
| GivesEngine (ffmpeg : FFmpeg)
| GivesNothing
| GivesBlob (b : Blob).

Definition fit (c : Call) (a : Answer) : option (JsError + Resp c) :=
  match c return option (JsError + Resp c) with
  | getFFmpeg _ =>
      match a with
      | Rejects e => Some (inl e) | GivesEngine ff => Some (inr ff) | _ => None
      end
  | writeInputFile _ _ _ =>
      match a with
      | Rejects e => Some (inl e) | GivesNothing => Some (inr tt) | _ => None
      end
  | ffmpeg_exec _ _ =>
      match a with
      | Rejects e => Some (inl e) | GivesNothing => Some (inr tt) | _ => None
      end
  | readOutputFile _ _ =>
      match a with
      | Rejects e => Some (inl e) | GivesBlob b => Some (inr b) | _ => None
      end
  end.

Definition answered (t : Task unit) (a : Answer) : option (Task unit) :=
  match t with
  | Await c k => option_map k (fit c a)
  | _ => None
  end.

Fixpoint remove_nth {X : Type} (i : nat) (l : list X) : list X :=
  match l, i with
  | [], _ => []
  | _ :: rest, O => rest
  | x :: rest, S j => x :: remove_nth j rest
  end.

(** What can happen to the page: the user acts on a control that is
    rendered and enabled, the engine settles a pending call, or the engine
    hands a log line to one of its loggers.  [url] is what the browser
    returns should the handler ask for an object URL. *)
Inductive Action : Type :=
| PickInput (files : list File) (url : string)
| DropFiles (files : list File) (url : string)
| ChooseStyle (k : StyleKey)
| ToggleSlowMo (checked : bool)
| PressClear
| PressProcess
| Settle (i : nat) (a : Answer) (url : string)
| LogLine (i : nat) (m : string).

Definition touches_input (a : Action) : bool :=
  match a with
  | PickInput _ _ | DropFiles _ _ | PressClear => true
  | _ => false
  end.

Section Page.

Variable buildArgs : StyleKey -> bool -> list string.

Definition perform (a : Action) (sys : Sys) : option Sys :=
  match a with
  | PickInput files url => Some (launch None (onFileInput files) url sys)
  | DropFiles files url => Some (launch None (onDrop files) url sys)
  | ChooseStyle k =>
      if existsb (fun r => StyleKey_eqb k (radio_value r)) (radios (view (ui sys)))
      then Some (launch None (call (setStyle k)) "" sys)
      else None
  | ToggleSlowMo checked =>
      match slowMoCheckbox (view (ui sys)) with
      | Some _ => Some (launch None (call (setSlowMo checked)) "" sys)
      | None => None
      end
  | PressClear =>
      if clearButton (view (ui sys))
      then Some (launch None onClear "" sys)
      else None
  | PressProcess =>
      if processDisabled (view (ui sys)) then None
      else Some (launch (file (ui sys)) (process_of buildArgs (ui sys)) "" sys)
  | Settle i a url =>
      match nth_error (in_flight sys) i with
      | Some r =>
          match answered (run_task r) a with
          | Some t =>
              Some (launch (run_file r) t url
                      {| ui := ui sys;
                         in_flight := remove_nth i (in_flight sys);
                         loggers := loggers sys;
                         output_of := output_of sys |})
          | None => None
          end
      | None => None
      end
  | LogLine i m =>
      match nth_error (loggers sys) i with
      | Some logger =>
          Some {| ui := set_all (logger m) (ui sys);
                  in_flight := in_flight sys;
                  loggers := loggers sys;
                  output_of := output_of sys |}
      | None => None
      end
  end.

(** The states the page can be in. *)
Inductive reachable : Sys -> Prop :=
| reach_boot : reachable boot
| reach_step : forall sys a sys',
    reachable sys -> perform a sys = Some sys' -> reachable sys'.

(** The same, when the user leaves the input alone (no pick, drop or
    Clear) while a run is waiting on the engine. *)
Inductive reachable_calmly : Sys -> Prop :=
| calm_boot : reachable_calmly boot
| calm_step : forall sys a sys',
    reachable_calmly sys ->
    (touches_input a = true -> in_flight sys = []) ->
    perform a sys = Some sys' -> reachable_calmly sys'.

End Page.

(** ** Scripts and sample inputs *)

(** A script of actions, played from a state of the page. *)
Fixpoint perform_all (buildArgs : StyleKey -> bool -> list string)
  (script : list Action) (sys : Sys) : option Sys :=
  match script with
  | [] => Some sys
  | a :: rest =>
      match perform buildArgs a sys with
      | Some sys' => perform_all buildArgs rest sys'
      | None => None
      end
  end.

(** The same, refusing a pick, a drop or a Clear while a run is waiting. *)
Fixpoint perform_calmly (buildArgs : StyleKey -> bool -> list string)
  (script : list Action) (sys : Sys) : option Sys :=
  match script with
  | [] => Some sys
  | a :: rest =>
      if touches_input a && negb (Nat.eqb (List.length (in_flight sys)) 0)
      then None
      else match perform buildArgs a sys with
           | Some sys' => perform_calmly buildArgs rest sys'
           | None => None
           end
  end.

Definition after_script (played : option Sys) : Sys :=
  match played with
  | Some sys => sys
  | None => boot
  end.

(** A stand-in for the absent [buildArgs], for the examples only. *)
Definition sample_buildArgs (k : StyleKey) (slow : bool) : list string :=
  ["-i"; "input.mp4"; "-vf"; StyleKey_text k; if slow then "slow" else "plain";
   "output.mp4"].

Definition clip_a : File := mkFile "a.mp4" "first clip".
Definition clip_b : File := mkFile "b.mp4" "second clip".
Definition no_filter : JsError := mkError (Some "No such filter").

Definition picked (f : File) (k : StyleKey) (slow : bool) : State :=
  {| file := Some f; inputUrl := Some "blob:in"; outputUrl := None;
     busy := false; progressText := ""; style := k; slowMo := slow |}.

(** An engine that loads and writes but rejects every [exec]; it counts
    the calls it has seen. *)
Definition refusing_engine : World :=
  {| wstate := nat;
     settle := fun c n =>
       match c return list string * (JsError + Resp c) * nat with
       | getFFmpeg _ => (["ffmpeg loaded"], inr (mkFFmpeg 1), S n)
       | writeInputFile _ _ _ => ([], inr tt, S n)
       | ffmpeg_exec _ _ => (["frame=    1 fps=0.0"], inl no_filter, S n)
       | readOutputFile _ _ => ([], inr "styled", S n)
       end;
     mint := fun _ n => ("blob:made", S n) |}.

(** An engine that does all it is asked. *)
Definition willing_engine : World :=
  {| wstate := nat;
     settle := fun c n =>
       match c return list string * (JsError + Resp c) * nat with
       | getFFmpeg _ => ([], inr (mkFFmpeg 2), S n)
       | writeInputFile _ _ _ => ([], inr tt, S n)
       | ffmpeg_exec _ _ => (["frame=   24 fps=12"; "video:1kB"], inr tt, S n)
       | readOutputFile _ _ => ([], inr "styled", S n)
       end;
     mint := fun _ n => ("blob:made", S n) |}.

(** The engine answers of a run that succeeds at once. *)
Definition smooth_answers : list Action :=
  [Settle 0 (GivesEngine (mkFFmpeg 2)) ""; Settle 0 GivesNothing "";
   Settle 0 GivesNothing ""; Settle 0 (GivesBlob "styled") "blob:out"].

(** Pick a clip, press Process, and drop another clip while the engine
    still works on the first. *)
Definition impatient_script : list Action :=
  [PickInput [clip_a] "blob:a"; PressProcess; DropFiles [clip_b] "blob:b"]
  ++ smooth_answers.

Definition stale_page : Sys :=
  after_script (perform_all sample_buildArgs impatient_script boot).

(** Pick a clip, press Process and wait for the result. *)
Definition patient_script : list Action :=
  [PickInput [clip_a] "blob:a"; PressProcess] ++ smooth_answers.

Definition fresh_page : Sys :=
  after_script (perform_calmly sample_buildArgs patient_script boot).

(** A clip is picked and Process was pressed. *)
Definition working_page : Sys :=
  after_script
    (perform_all sample_buildArgs [PickInput [clip_a] "blob:a"; PressProcess] boot).

(** The pages a script goes through, one per action. *)
Fixpoint pages_along (buildArgs : StyleKey -> bool -> list string)
  (script : list Action) (sys : Sys) : list Sys :=
  match script with
  | [] => []
  | a :: rest =>
      match perform buildArgs a sys with
      | Some sys' => sys' :: pages_along buildArgs rest sys'
      | None => []
      end
  end.

(** Pick a clip, choose a style, press Process; the engine loads, takes
    the input and rejects both invocations. *)
Definition failing_script : list Action :=
  [PickInput [clip_a] "blob:a"; ChooseStyle action; PressProcess;
   Settle 0 (GivesEngine (mkFFmpeg 1)) ""; Settle 0 GivesNothing "";
   Settle 0 (Rejects no_filter) ""; Settle 0 (Rejects no_filter) ""].

Definition failed_page : Sys :=
  after_script (perform_all sample_buildArgs failing_script boot).

(** The sample runs: [process] on a picked clip against each engine, and on
    the page as it starts. *)
Definition action_pick : State := picked clip_a action true.

Definition later_pick : State :=
  {| file := Some clip_b; inputUrl := Some "blob:b"; outputUrl := Some "blob:old";
     busy := false; progressText := "Done"; style := action; slowMo := true |}.

Definition failing_run : Outcome unit :=
  run refusing_engine (process_of sample_buildArgs action_pick) no_logger
      action_pick 0.

Definition smooth_run : Outcome unit :=
  run willing_engine (process_of sample_buildArgs later_pick) no_logger
      later_pick 0.

Definition idle_run : Outcome unit :=
  run willing_engine (process_of sample_buildArgs initial) no_logger initial 0.

(** ** Shapes of tasks *)

(** Every setter call of a task satisfies [P]. *)
Fixpoint every_update {A : Type} (P : Setter -> Prop) (t : Task A) : Prop :=
  match t with
  | Ret _ | Throw _ => True
  | Upd u k => P u /\ every_update P k
  | ConsoleError _ k => every_update P k
  | ObjectURL _ k => forall url, every_update P (k url)
  | Await _ k => forall r, every_update P (k r)
  end.

(** Every awaited call of a task satisfies [Q]. *)
Fixpoint every_call {A : Type} (Q : Call -> Prop) (t : Task A) : Prop :=
  match t with
  | Ret _ | Throw _ => True
  | Upd _ k => every_call Q k
  | ConsoleError _ k => every_call Q k
  | ObjectURL _ k => forall url, every_call Q (k url)
  | Await c k => Q c /\ forall r, every_call Q (k r)
  end.

(** The only logger of the component is [onLog]. *)
Definition logs_to_onLog (c : Call) : Prop :=
  match c with
  | getFFmpeg logger => logger = onLog
  | _ => True
  end.

(** The setters a run of [process] may call once it is under way. *)
Definition run_update (u : Setter) : Prop :=
  match u with
  | setBusy _ | setProgressText _ | setOutputUrl (Some _) => True
  | _ => False
  end.

(** A task that holds the busy flag: on every path it leaves the flag
    alone until its last act, which is [setBusy(false)]. *)
Fixpoint holds_lock (t : Task unit) : Prop :=
  match t with
  | Ret _ | Throw _ => False
  | Upd (setBusy b) k => b = false /\ k = Ret tt
  | Upd _ k => holds_lock k
  | ConsoleError _ k => holds_lock k
  | ObjectURL _ k => forall url, holds_lock (k url)
  | Await _ k => forall r, holds_lock (k r)
  end.

(** At most one run waits on the engine, and the busy flag says whether one
    does. *)
Definition single_flight (sys : Sys) : Prop :=
  Forall (fun logger => logger = onLog) (loggers sys) /\
  ((in_flight sys = [] /\ busy (ui sys) = false) \/
   (exists r, in_flight sys = [r] /\ busy (ui sys) = true /\
              holds_lock (run_task r) /\
              every_call logs_to_onLog (run_task r))).

(** Every waiting run was started on the file that is selected now, and an
    output URL on display was written by a run on that file. *)
Definition output_matches_input (sys : Sys) : Prop :=
  Forall (fun logger => logger = onLog) (loggers sys) /\
  (forall r, In r (in_flight sys) ->
     every_update run_update (run_task r) /\
     every_call logs_to_onLog (run_task r) /\
     exists f, run_file r = Some f /\ file (ui sys) = Some f) /\
  (outputUrl (ui sys) <> None ->
     exists f, output_of sys = Some f /\ file (ui sys) = Some f).

(** ** Reading traces and pages *)

(** The calls that went to the engine, in order. *)
Fixpoint calls (tr : list Event) : list Call :=
  match tr with
  | [] => []
  | ECall c _ _ :: rest => c :: calls rest
  | _ :: rest => calls rest
  end.


(** The rejections the engine answered with, in order. *)
Fixpoint rejections (tr : list Event) : list JsError :=
  match tr with
  | [] => []
  | ECall _ _ (inl e) :: rest => e :: rejections rest
  | _ :: rest => rejections rest
  end.


(** The instance [getFFmpeg] resolved to. *)
Fixpoint engine_of (tr : list Event) : option FFmpeg :=
  match tr with
  | [] => None
  | ECall (getFFmpeg _) _ (inr ffmpeg) :: _ => Some ffmpeg
  | _ :: rest => engine_of rest
  end.


(** The progress texts [process] sets before it waits on the engine. *)
Definition stage_texts : list string :=
  ["Loading ffmpeg..."; "Preparing input..."; "Applying style..."; "Exporting..."].

(** What the progress line can show while a run waits: a stage text, or a
    log line the logger let through. *)
Definition steady_text (m : string) : Prop :=
  In m stage_texts \/ mentions_frame m.

(** A task that waits on the engine only under a stage text: [shown] says
    whether the text on display is one when the task starts. *)
Fixpoint announces_stages (t : Task unit) (shown : Prop) : Prop :=
  match t with
  | Ret _ | Throw _ => True
  | Upd (setProgressText m) k => announces_stages k (In m stage_texts)
  | Upd _ k => announces_stages k shown
  | ConsoleError _ k => announces_stages k shown
  | ObjectURL _ k => forall url, announces_stages (k url) shown
  | Await _ k => shown /\ forall r, announces_stages (k r) True
  end.

(** The runs in flight are runs of [process], the selection is whole (a
    file and its URL come and go together), and a busy page shows a steady
    text. *)
Definition tidy (sys : Sys) : Prop :=
  Forall (fun logger => logger = onLog) (loggers sys) /\
  (forall r, In r (in_flight sys) ->
     every_update run_update (run_task r) /\
     every_call logs_to_onLog (run_task r) /\
     announces_stages (run_task r) True) /\
  (file (ui sys) = None <-> inputUrl (ui sys) = None) /\
  (busy (ui sys) = true -> steady_text (progressText (ui sys))).

(** Clear pressed on the page that shows a result, for the examples. *)
Definition cleared_page : Sys :=
  after_script (perform_all sample_buildArgs [PressClear] fresh_page).


(** [process] on a selected file, with the two argument lists named: the
    form every style's [process] reduces to. *)
Definition process_with (f : File) (primary fallback : list string) : Task unit :=
  call (setBusy true) ;;
  call (setProgressText "Loading ffmpeg...") ;;
  try_finally
    (try_catch
       (ffmpeg <- await (getFFmpeg onLog) ;;
        call (setProgressText "Preparing input...") ;;
        await (writeInputFile ffmpeg f "input.mp4") ;;
        call (setProgressText "Applying style...") ;;
        try_catch
          (await (ffmpeg_exec ffmpeg primary))
          (fun _ => await (ffmpeg_exec ffmpeg fallback)) ;;
        call (setProgressText "Exporting...") ;;
        blob <- await (readOutputFile ffmpeg "output.mp4") ;;
        url <- createObjectURL (FromBlob blob) ;;
        call (setOutputUrl (Some url)) ;;
        call (setProgressText "Done"))
       (fun e =>
          console_error e ;;
          call (setProgressText (failure_text e))))
    (call (setBusy false)).


(** The actions of the engine, as opposed to those of the user. *)
Definition engine_action (a : Action) : bool :=
  match a with
  | Settle _ _ _ | LogLine _ _ => true
  | _ => false
  end.



(** The order of the engine calls of [process] on the file [f], given the
    two argument lists. *)
Definition follows_protocol (f : File) (primary_list fallback_list : list string)
  (tr : list Event) : Prop :=
  match engine_of tr with
  | None => calls tr = [getFFmpeg onLog] /\ List.length (rejections tr) = 1
  | Some ffmpeg =>
      let load := getFFmpeg onLog in
      let write := writeInputFile ffmpeg f "input.mp4" in
      let primary := ffmpeg_exec ffmpeg primary_list in
      let fallback := ffmpeg_exec ffmpeg fallback_list in
      let read := readOutputFile ffmpeg "output.mp4" in
      (calls tr = [load; write] /\ List.length (rejections tr) = 1) \/
      (calls tr = [load; write; primary; read] /\
       List.length (rejections tr) <= 1) \/
      (calls tr = [load; write; primary; fallback] /\
       List.length (rejections tr) = 2) \/
      (calls tr = [load; write; primary; fallback; read] /\
       1 <= List.length (rejections tr) <= 2)
  end.

(** The shape the four retry lists share: only the filter differs. *)
Definition retry_list (filter : string) : list string :=
  ["-i"; "input.mp4"; "-vf"; filter; "-c:v"; "mpeg4"; "-q:v"; "5"; "-an";
   "-movflags"; "+faststart"; "output.mp4"].

(** Three actions that select any style with any slow-motion flag. *)
Definition selecting_script (f : File) (k : StyleKey) (slow : bool) : list Action :=
  [PickInput [f] "blob:in"; ToggleSlowMo slow; ChooseStyle k].

(** The engine has loaded on the working page; a frame line arrives on it. *)
Definition load_answer : Action := Settle 0 (GivesEngine (mkFFmpeg 2)) "".
Definition frame_line : Action := LogLine 0 "frame=   24 fps=12".

Definition loaded_page : Sys :=
  after_script (perform sample_buildArgs load_answer working_page).

Definition logged_page : Sys :=
  after_script (perform sample_buildArgs frame_line working_page).


(** A clip is picked and nothing else has happened. *)
Definition picked_page : Sys :=
  after_script (perform_all sample_buildArgs [PickInput [clip_a] "blob:a"] boot).

(** The logger a run handed to the engine: the argument of its first
    [getFFmpeg]. *)
Fixpoint handed_logger (tr : list Event) : option (string -> list Setter) :=
  match tr with
  | [] => None
  | ECall (getFFmpeg given) _ _ :: _ => Some given
  | _ :: rest => handed_logger rest
  end.

(** While a run waits on the engine, the engine holds a logger. *)
Definition listening (sys : Sys) : Prop :=
  in_flight sys <> [] -> loggers sys <> [].

(** A log line without ["frame="] arrives on the working page. *)
Definition size_line : Action := LogLine 0 "video:1kB audio:0kB".

Definition unmoved_page : Sys :=
  after_script (perform sample_buildArgs size_line working_page).

(** * Properties *)

(** ** The substring test *)

Lemma prefix_cut (p s : string) :
  prefix p s = true <-> exists rest, s = (p ++ rest)%string.
Proof.
  revert s; induction p as [|c p IH]; intros s.
  - destruct s; simpl; split; eauto.
  - destruct s as [|d s]; simpl.
    + split; [discriminate | intros [rest H]; discriminate].
    + destruct (ascii_dec c d) as [->|Hcd].
      * rewrite IH; split; intros [rest H]; exists rest.
        -- now rewrite H.
        -- now injection H.
      * split; [discriminate | intros [rest H]; injection H; intros _ E].
        now elim Hcd.
Qed.

Lemma includes_cut (needle s : string) :
  includes needle s = true <->
  exists before after, s = (before ++ needle ++ after)%string.
Proof.
  induction s as [|c s IH]; cbn [includes].
  - rewrite prefix_cut; split.
    + intros [rest H]; exists EmptyString, rest; exact H.
    + intros [before [after H]]; destruct before; [|discriminate].
      exists after; exact H.
  - rewrite orb_true_iff, IH, prefix_cut; split.
    + intros [[rest H]|[before [after H]]].
      * exists EmptyString, rest; exact H.
      * exists (String c before), after; cbn [append]; now rewrite H.
    + intros [[|d before] [after H]].
      * left; exists after; exact H.
      * right; exists before, after; cbn [append] in H; now injection H.
Qed.

Lemma onLog_cases (m : string) :
  (mentions_frame m /\ onLog m = [setProgressText m]) \/
  (~ mentions_frame m /\ onLog m = []).
Proof.
  unfold onLog, mentions_frame.
  destruct (includes "frame=" m) eqn:E.
  - left; split; [now apply includes_cut | reflexivity].
  - right; split; [|reflexivity].
    intros H; apply includes_cut in H; congruence.
Qed.

(** ** What the setters leave alone *)

Lemma onLog_busy (m : string) (s : State) : busy (set_all (onLog m) s) = busy s.
Proof. unfold onLog; destruct (includes "frame=" m); reflexivity. Qed.

(** A log line changes nothing but the progress text. *)
Lemma onLog_frame (m : string) (s : State) :
  let s' := set_all (onLog m) s in
  file s' = file s /\ inputUrl s' = inputUrl s /\ outputUrl s' = outputUrl s /\
  busy s' = busy s /\ style s' = style s /\ slowMo s' = slowMo s.
Proof. unfold onLog; destruct (includes "frame=" m); simpl; auto 10. Qed.

(** ** [process] against any engine *)

Ltac engine_answers :=
  repeat match goal with
  | |- context [settle ?W ?c ?w] =>
      let logs := fresh "logs" in
      let e := fresh "e" in
      let v := fresh "v" in
      let w' := fresh "w" in
      destruct (settle W c w) as [[logs [e|v]] w']; simpl
  | |- context [mint ?W ?src ?w] =>
      let url := fresh "url" in
      let w' := fresh "w" in
      destruct (mint W src w) as [url w']; simpl
  end.

Ltac open_process s Hfile :=
  unfold process_of, process; rewrite Hfile;
  destruct (style s); simpl; engine_answers.

Section ProcessFacts.

Variable buildArgs : StyleKey -> bool -> list string.

Lemma retry_table (ffmpeg : FFmpeg) (k : StyleKey) :
  retry ffmpeg k = await (ffmpeg_exec ffmpeg (fallbackArgs k)).
Proof. destruct k; reflexivity. Qed.

(** C10.  Calling [process] while no file is selected returns at once: no
    setter is called, so the busy flag, the progress text and both URLs keep
    their values, and no call reaches the engine (the trace is empty). *)
Theorem process_without_file :
  forall (W : World) (logger : string -> list Setter) (s : State) (w : wstate W),
    file s = None ->
    run W (process_of buildArgs s) logger s w = mkOutcome s (inr tt) [].
Proof.
  intros W logger s w H. unfold process_of, process. rewrite H. reflexivity.
Qed.

Lemma process_resets_busy_page :
  forall (W : World) (logger : string -> list Setter) (s : State) (w : wstate W)
         (f : File),
    file s = Some f ->
    let o := run W (process_of buildArgs s) logger s w in
    busy (final o) = false /\ result o = inr tt.
Proof.
  intros W logger s w f H. open_process s H; split; reflexivity.
Qed.

(** C8.  With a file selected, whatever the engine answers (success, a
    failure while loading, while writing the input, in both invocations, or
    while exporting), [process] runs to its end, resolves, and the last
    thing it does is [setBusy(false)]: the busy flag is false afterwards. *)
Theorem process_resets_busy :
  forall (W : World) (logger : string -> list Setter) (s : State) (w : wstate W)
         (f : File),
    file s = Some f ->
    let o := run W (process_of buildArgs s) logger s w in
    busy (final o) = false /\
    result o = inr tt /\
    busy_writes (trace o) = [true; false] /\
    last (trace o) (ESet (setBusy true)) = ESet (setBusy false).
Proof.
  intros W logger s w f H. open_process s H; repeat split; reflexivity.
Qed.

(** X1.  The retry of [process]: when the primary invocation (the first
    [exec], made with the list of [buildArgs]) is rejected, exactly one more
    [exec] follows, with the retry list of the selected style; and when
    that one is rejected too, [process] makes no further call: it gives
    ["Failed: "] followed by the message to [setProgressText], once and as
    its last progress text, and ends. *)
Theorem fallback_once_then_failure_text :
  forall (W : World) (logger : string -> list Setter) (s : State) (w : wstate W)
         (f : File) (a1 : list string) (e1 : JsError)
         (rest : list (list string * (JsError + unit))),
    file s = Some f ->
    exec_calls (trace (run W (process_of buildArgs s) logger s w))
      = (a1, inl e1) :: rest ->
    let o := run W (process_of buildArgs s) logger s w in
    a1 = buildArgs (style s) (slowMo s) /\
    exists r2 : JsError + unit,
      rest = [(fallbackArgs (style s), r2)] /\
      forall e2 : JsError, r2 = inl e2 ->
        progressText (final o) = ("Failed: " ++ message_or_unknown e2)%string /\
        progress_texts (trace o) =
          ["Loading ffmpeg..."; "Preparing input..."; "Applying style...";
           ("Failed: " ++ message_or_unknown e2)%string] /\
        engine_calls (trace o) = 4 /\
        result o = inr tt.
Proof.
  intros W logger s w f a1 e1 rest H.
  open_process s H; intros E; try discriminate E;
    injection E as <- <- <-; (split; [reflexivity|]);
    eexists; (split; [reflexivity|]);
    intros e2 E2; try discriminate E2; injection E2 as <-;
    repeat split; reflexivity.
Qed.

Lemma primary_args_of_process :
  forall (W : World) (logger : string -> list Setter) (s : State) (w : wstate W),
    let tr := trace (run W (process_of buildArgs s) logger s w) in
    primary_args tr =
      if input_written tr then Some (buildArgs (style s) (slowMo s)) else None.
Proof.
  intros W logger s w. destruct (file s) as [f|] eqn:H.
  - open_process s H; reflexivity.
  - unfold process_of, process; rewrite H; reflexivity.
Qed.


(** C6.  The primary argument list depends on the selected style and the
    slow-motion flag only: two runs that agree on these two hand the engine
    the same list, whatever the file, the rest of the state and the engine
    are. *)
Theorem primary_args_depend_on_selection_only :
  forall (W1 W2 : World) (logger1 logger2 : string -> list Setter)
         (s1 s2 : State) (w1 : wstate W1) (w2 : wstate W2)
         (args1 args2 : list string),
    style s1 = style s2 ->
    slowMo s1 = slowMo s2 ->
    primary_args (trace (run W1 (process_of buildArgs s1) logger1 s1 w1)) = Some args1 ->
    primary_args (trace (run W2 (process_of buildArgs s2) logger2 s2 w2)) = Some args2 ->
    args1 = args2.
Proof.
  intros W1 W2 logger1 logger2 s1 s2 w1 w2 args1 args2 Hk Hm.
  rewrite !primary_args_of_process, Hk, Hm.
  do 2 destruct (input_written _); congruence.
Qed.

End ProcessFacts.

(** C4.  The catalog lists four records in a fixed order, their keys are
    pairwise different, each has a name and a description, and the
    slow-motion checkbox is rendered exactly when the selected key is
    [cinematic]. *)
Theorem style_catalog_shape :
  List.length STYLES = 4 /\
  map key STYLES = [cinematic; action; aesthetic; realistic] /\
  NoDup (map key STYLES) /\
  Forall (fun r => name r <> "" /\ desc r <> "") STYLES /\
  (forall s : State,
      slowMoCheckbox (view s) =
        match style s with cinematic => Some (slowMo s) | _ => None end) /\
  (forall k : StyleKey,
      (forall s : State, style s = k -> slowMoCheckbox (view s) <> None) <->
      k = cinematic).
Proof.
  split; [reflexivity|]. split; [reflexivity|]. split.
  { simpl. repeat constructor; simpl; intuition discriminate. }
  split.
  { repeat constructor; discriminate. }
  split.
  { intros s; simpl; destruct (style s); reflexivity. }
  intros k; split.
  - intros H. specialize (H (mkState None None None false "" k true) eq_refl).
    simpl in H. destruct k; try reflexivity; now elim H.
  - intros -> s Hs. simpl. rewrite Hs. discriminate.
Qed.

(** ** The synchronous segments *)

Lemma advance_lock :
  forall (t : Task unit) (url : string) (s s' : State) (evs : list Event)
         (t' : Task unit),
    holds_lock t ->
    advance url t s = (s', evs, t') ->
    (t' = Ret tt /\ busy s' = false) \/
    (busy s' = busy s /\ holds_lock t' /\ exists c k, t' = Await c k).
Proof.
  induction t as [a|e|u k IH|e k IH|src k IH|c k IH]; intros url s s' evs t' L E;
    simpl in *.
  - contradiction.
  - contradiction.
  - destruct (advance url k (set_state u s)) as [[s1 evs1] t1] eqn:E1.
    injection E as <- <- <-.
    destruct u; try (destruct (IH _ _ _ _ _ L E1) as [?|[Hb ?]]; [now left|right];
                     split; [rewrite Hb; reflexivity|assumption]).
    destruct L as [-> ->]. simpl in E1. injection E1 as <- <- <-.
    left; split; reflexivity.
  - destruct (advance url k s) as [[s1 evs1] t1] eqn:E1.
    injection E as <- <- <-. eapply IH; eauto.
  - destruct (advance url (k url) s) as [[s1 evs1] t1] eqn:E1.
    injection E as <- <- <-. eapply IH; eauto.
  - injection E as <- <- <-. right; repeat split; eauto.
Qed.

Lemma advance_run_update :
  forall (t : Task unit) (url : string) (s s' : State) (evs : list Event)
         (t' : Task unit) (origin g : option File),
    every_update run_update t ->
    advance url t s = (s', evs, t') ->
    every_update run_update t' /\
    file s' = file s /\
    ((outputUrl s' = outputUrl s /\ track origin evs g = g) \/
     track origin evs g = origin).
Proof.
  induction t as [a|e|u k IH|e k IH|src k IH|c k IH];
    intros url s s' evs t' origin g L E; simpl in *.
  - injection E as <- <- <-. auto.
  - injection E as <- <- <-. auto.
  - destruct (advance url k (set_state u s)) as [[s1 evs1] t1] eqn:E1.
    injection E as <- <- <-. destruct L as [Hu L].
    destruct u as [v|v|[v|]|v|v|v|v]; simpl in Hu; try contradiction.
    + destruct (IH _ _ _ _ _ origin origin L E1) as (H1 & H2 & H3).
      split; [exact H1|]. split; [exact H2|]. right. simpl.
      destruct H3 as [[_ H3]|H3]; exact H3.
    + destruct (IH _ _ _ _ _ origin g L E1) as (H1 & H2 & H3). auto.
    + destruct (IH _ _ _ _ _ origin g L E1) as (H1 & H2 & H3). auto.
  - destruct (advance url k s) as [[s1 evs1] t1] eqn:E1.
    injection E as <- <- <-.
    destruct (IH _ _ _ _ _ origin g L E1) as (H1 & H2 & H3). auto.
  - destruct (advance url (k url) s) as [[s1 evs1] t1] eqn:E1.
    injection E as <- <- <-.
    destruct (IH _ _ _ _ _ _ origin g (L url) E1) as (H1 & H2 & H3). auto.
  - injection E as <- <- <-. auto.
Qed.

Lemma advance_calls :
  forall (Q : Call -> Prop) (t : Task unit) (url : string) (s s' : State)
         (evs : list Event) (t' : Task unit),
    every_call Q t ->
    advance url t s = (s', evs, t') ->
    every_call Q t'.
Proof.
  induction t as [a|e|u k IH|e k IH|src k IH|c k IH]; intros url s s' evs t' L E;
    simpl in *.
  - now injection E as <- <- <-.
  - now injection E as <- <- <-.
  - destruct (advance url k (set_state u s)) as [[s1 evs1] t1] eqn:E1.
    injection E as <- <- <-. eapply IH; eauto.
  - destruct (advance url k s) as [[s1 evs1] t1] eqn:E1.
    injection E as <- <- <-. eapply IH; eauto.
  - destruct (advance url (k url) s) as [[s1 evs1] t1] eqn:E1.
    injection E as <- <- <-. eapply IH; eauto.
  - now injection E as <- <- <-.
Qed.

Lemma registered_onLog (t : Task unit) :
  every_call logs_to_onLog t ->
  Forall (fun logger => logger = onLog) (registered t).
Proof.
  destruct t as [a|e|u k|e k|src k|c k]; simpl; try constructor.
  destruct c; simpl; intros [Hc _]; repeat constructor. exact Hc.
Qed.

Ltac every_path :=
  repeat (simpl;
          match goal with
          | |- forall _ : _ + _, _ => intros [?|?]
          | |- forall _, _ => intro
          | |- _ /\ _ => split
          | |- True => exact I
          | |- _ = _ => reflexivity
          end).

Section PageFacts.

Variable buildArgs : StyleKey -> bool -> list string.

(** The first segment of [process]: two setters, then the wait for
    [getFFmpeg]; what follows holds the lock, calls run setters only and
    knows no logger but [onLog]. *)
Lemma process_first_segment (f : File) (k : StyleKey) (m : bool) :
  exists rest : JsError + FFmpeg -> Task unit,
    process buildArgs (Some f) k m =
      Upd (setBusy true)
        (Upd (setProgressText "Loading ffmpeg...")
           (Await (getFFmpeg onLog) rest)) /\
    holds_lock (Await (getFFmpeg onLog) rest) /\
    every_update run_update (Await (getFFmpeg onLog) rest) /\
    every_call logs_to_onLog (Await (getFFmpeg onLog) rest).
Proof.
  eexists. split; [reflexivity|].
  repeat split; destruct k; every_path.
Qed.

Lemma launch_finished :
  forall (origin : option File) (h : Task unit) (url : string) (sys : Sys)
         (s' : State) (evs : list Event) (a : unit),
    advance url h (ui sys) = (s', evs, Ret a) ->
    launch origin h url sys =
      mkSys s' (in_flight sys) (loggers sys) (track origin evs (output_of sys)).
Proof.
  intros origin h url sys s' evs a E. unfold launch. rewrite E. simpl.
  now rewrite !app_nil_r.
Qed.

Lemma onPickFile_segment (f : File) (url : string) (s : State) :
  advance url (onPickFile f) s =
    (set_state (setOutputUrl None)
       (set_state (setInputUrl (Some url)) (set_state (setFile (Some f)) s)),
     [ESet (setFile (Some f)); EUrl (FromFile f) url;
      ESet (setInputUrl (Some url)); ESet (setOutputUrl None)],
     Ret tt).
Proof. reflexivity. Qed.

Lemma isReady_true (s : State) :
  isReady s = true <-> (exists f, file s = Some f) /\ busy s = false.
Proof.
  unfold isReady. destruct (file s) as [f|], (busy s); simpl; split;
    try discriminate; try (intros [[f' H] H']; discriminate); eauto.
Qed.

Lemma remove_nth_single {X : Type} (i : nat) (x y : X) :
  nth_error [x] i = Some y -> remove_nth i [x] = [] /\ y = x.
Proof.
  destruct i as [|i]; simpl.
  - intros E; injection E as <-; auto.
  - destruct i; discriminate.
Qed.

Lemma answered_lock (t t' : Task unit) (a : Answer) :
  holds_lock t -> answered t a = Some t' -> holds_lock t'.
Proof.
  destruct t as [x|e|u k|e k|src k|c k]; simpl; try discriminate.
  intros L E. destruct (fit c a) as [r|]; [|discriminate].
  injection E as <-. apply L.
Qed.

Lemma answered_run_update (t t' : Task unit) (a : Answer) :
  every_update run_update t -> answered t a = Some t' ->
  every_update run_update t'.
Proof.
  destruct t as [x|e|u k|e k|src k|c k]; simpl; try discriminate.
  intros L E. destruct (fit c a) as [r|]; [|discriminate].
  injection E as <-. apply L.
Qed.

Lemma answered_calls (t t' : Task unit) (a : Answer) :
  every_call logs_to_onLog t -> answered t a = Some t' ->
  every_call logs_to_onLog t'.
Proof.
  destruct t as [x|e|u k|e k|src k|c k]; simpl; try discriminate.
  intros [_ L] E. destruct (fit c a) as [r|]; [|discriminate].
  injection E as <-. apply L.
Qed.

Lemma single_flight_step (a : Action) (sys sys' : Sys) :
  single_flight sys -> perform buildArgs a sys = Some sys' -> single_flight sys'.
Proof.
  intros [Hlog Hrun] E.
  destruct a as [files url|files url|k|checked| | |i ans url|i m]; simpl in E.
  - injection E as <-. destruct files as [|f files]; simpl;
      erewrite launch_finished by reflexivity; split; assumption.
  - injection E as <-. destruct files as [|f files]; simpl;
      erewrite launch_finished by reflexivity; split; assumption.
  - match type of E with (if ?b then _ else _) = _ => destruct b end;
      [|discriminate]. injection E as <-.
    erewrite launch_finished by reflexivity. split; assumption.
  - destruct (StyleKey_eqb _ _); [|discriminate]. injection E as <-.
    erewrite launch_finished by reflexivity. split; assumption.
  - destruct (truthy _); [|discriminate]. injection E as <-.
    erewrite launch_finished by reflexivity. split; assumption.
  - destruct (isReady (ui sys)) eqn:R; [|discriminate]. simpl in E.
    injection E as <-. apply isReady_true in R. destruct R as [[f Hf] Hb].
    destruct Hrun as [[Hnil _]|(r & _ & Hbusy & _)]; [|congruence].
    unfold process_of. rewrite Hf.
    destruct (process_first_segment f (style (ui sys)) (slowMo (ui sys)))
      as (rest & -> & L & _ & C).
    unfold launch; simpl. rewrite Hnil. split.
    + apply Forall_app; split; [assumption|]. now constructor.
    + right. eexists. split; [reflexivity|]. split; [reflexivity|].
      split; [exact L|exact C].
  - destruct (nth_error (in_flight sys) i) as [r|] eqn:N; [|discriminate].
    destruct (answered (run_task r) ans) as [t|] eqn:A; [|discriminate].
    injection E as <-.
    destruct Hrun as [[Hnil _]|(r0 & Hone & Hbusy & L & C)].
    { rewrite Hnil in N. destruct i; discriminate. }
    rewrite Hone in N. apply remove_nth_single in N. destruct N as [N ->].
    pose proof (answered_lock _ _ _ L A) as L'.
    pose proof (answered_calls _ _ _ C A) as C'.
    unfold launch; simpl. rewrite Hone, N.
    destruct (advance url t (ui sys)) as [[s1 evs1] t1] eqn:E1. simpl.
    pose proof (advance_calls _ _ _ _ _ _ _ C' E1) as C1.
    destruct (advance_lock _ _ _ _ _ _ L' E1) as [[-> Hb]|(Hb & L1 & c & k & ->)];
      simpl.
    + split; [now rewrite app_nil_r|]. now left.
    + split.
      * apply Forall_app; split; [assumption|].
        apply (registered_onLog (Await c k)); exact C1.
      * right. eexists. split; [reflexivity|]. split; [simpl; congruence|].
        split; [exact L1|exact C1].
  - destruct (nth_error (loggers sys) i) as [logger|] eqn:N; [|discriminate].
    injection E as <-. split; [assumption|]. simpl.
    apply nth_error_In in N. rewrite Forall_forall in Hlog.
    rewrite (Hlog _ N), onLog_busy. exact Hrun.
Qed.

Lemma reachable_single_flight (sys : Sys) :
  reachable buildArgs sys -> single_flight sys.
Proof.
  induction 1 as [|sys a sys' _ IH E].
  - split; [constructor|]. left; split; reflexivity.
  - eapply single_flight_step; eauto.
Qed.

Lemma remove_nth_In {X : Type} (i : nat) (l : list X) (x : X) :
  In x (remove_nth i l) -> In x l.
Proof.
  revert i; induction l as [|y l IH]; intros [|i]; simpl; try tauto.
  intros [->|H]; [now left|]. right; eapply IH; eauto.
Qed.

Lemma suspended_In (origin : option File) (t : Task unit) (r : Run) :
  In r (suspended origin t) -> r = mkRun origin t.
Proof.
  destruct t; simpl; try contradiction. intros [<-|[]]; reflexivity.
Qed.

Lemma output_matches_input_step (a : Action) (sys sys' : Sys) :
  output_matches_input sys ->
  (touches_input a = true -> in_flight sys = []) ->
  perform buildArgs a sys = Some sys' ->
  output_matches_input sys'.
Proof.
  intros (Hlog & Hruns & Hout) Hcalm E.
  destruct a as [files url|files url|k|checked| | |i ans url|i m]; simpl in E.
  - injection E as <-. specialize (Hcalm eq_refl).
    destruct files as [|f files]; simpl;
      erewrite launch_finished by reflexivity.
    + split; [|split]; assumption.
    + split; [assumption|]. split; simpl.
      * rewrite Hcalm; intros r [].
      * intros H; now elim H.
  - injection E as <-. specialize (Hcalm eq_refl).
    destruct files as [|f files]; simpl;
      erewrite launch_finished by reflexivity.
    + split; [|split]; assumption.
    + split; [assumption|]. split; simpl.
      * rewrite Hcalm; intros r [].
      * intros H; now elim H.
  - match type of E with (if ?b then _ else _) = _ => destruct b end;
      [|discriminate]. injection E as <-.
    erewrite launch_finished by reflexivity. split; [|split]; assumption.
  - destruct (StyleKey_eqb _ _); [|discriminate]. injection E as <-.
    erewrite launch_finished by reflexivity. split; [|split]; assumption.
  - destruct (truthy _); [|discriminate]. injection E as <-.
    specialize (Hcalm eq_refl).
    erewrite launch_finished by reflexivity.
    split; [assumption|]. split; simpl.
    + rewrite Hcalm; intros r [].
    + intros H; now elim H.
  - destruct (isReady (ui sys)) eqn:R; [|discriminate]. simpl in E.
    injection E as <-. apply isReady_true in R. destruct R as [[f Hf] Hb].
    unfold process_of. rewrite Hf.
    destruct (process_first_segment f (style (ui sys)) (slowMo (ui sys)))
      as (rest & -> & _ & U & C).
    unfold launch; simpl. split; [|split]; simpl.
    + apply Forall_app; split; [assumption|]. now constructor.
    + intros r Hr. apply in_app_or in Hr. destruct Hr as [Hr|[<-|[]]].
      * exact (Hruns r Hr).
      * simpl. split; [exact U|]. split; [exact C|]. now exists f.
    + exact Hout.
  - destruct (nth_error (in_flight sys) i) as [r|] eqn:N; [|discriminate].
    destruct (answered (run_task r) ans) as [t|] eqn:A; [|discriminate].
    injection E as <-.
    destruct (Hruns r (nth_error_In _ _ N)) as (U & C & f & Hrf & Hf).
    pose proof (answered_run_update _ _ _ U A) as U'.
    pose proof (answered_calls _ _ _ C A) as C'.
    unfold launch; simpl.
    destruct (advance url t (ui sys)) as [[s1 evs1] t1] eqn:E1. simpl.
    pose proof (advance_calls _ _ _ _ _ _ _ C' E1) as C1.
    destruct (advance_run_update _ _ _ _ _ _ (run_file r) (output_of sys) U' E1)
      as (U1 & Hfile & Htrack).
    split; [|split]; simpl.
    + apply Forall_app; split; [assumption|]. now apply registered_onLog.
    + intros r' Hr'. apply in_app_or in Hr'. destruct Hr' as [Hr'|Hr'].
      * apply remove_nth_In in Hr'. rewrite Hfile. exact (Hruns r' Hr').
      * apply suspended_In in Hr'. subst r'. simpl.
        split; [exact U1|]. split; [exact C1|]. exists f. now rewrite Hfile.
    + intros Hshown. rewrite Hfile.
      destruct Htrack as [[Hsame ->]| ->].
      * apply Hout. now rewrite <- Hsame.
      * now exists f.
  - destruct (nth_error (loggers sys) i) as [logger|] eqn:N; [|discriminate].
    injection E as <-.
    apply nth_error_In in N. rewrite Forall_forall in Hlog.
    pose proof (Hlog _ N) as ->. rewrite <- Forall_forall in Hlog.
    destruct (onLog_frame m (ui sys)) as (F1 & _ & F3 & _).
    split; [assumption|]. split; simpl.
    + rewrite F1. exact Hruns.
    + rewrite F1, F3. exact Hout.
Qed.

Lemma calm_output_matches_input (sys : Sys) :
  reachable_calmly buildArgs sys -> output_matches_input sys.
Proof.
  induction 1 as [|sys a sys' _ IH Hcalm E].
  - split; [constructor|]. split; simpl; [intros r []|]. intros H; now elim H.
  - eapply output_matches_input_step; eauto.
Qed.

End PageFacts.

Lemma perform_all_reachable (buildArgs : StyleKey -> bool -> list string)
  (script : list Action) :
  forall sys sys',
    reachable buildArgs sys ->
    perform_all buildArgs script sys = Some sys' ->
    reachable buildArgs sys'.
Proof.
  induction script as [|a script IH]; intros sys sys' R E; simpl in E.
  - now injection E as <-.
  - destruct (perform buildArgs a sys) as [sys1|] eqn:E1; [|discriminate].
    eapply IH; [|exact E]. eapply reach_step; eauto.
Qed.

Lemma perform_calmly_reachable (buildArgs : StyleKey -> bool -> list string)
  (script : list Action) :
  forall sys sys',
    reachable_calmly buildArgs sys ->
    perform_calmly buildArgs script sys = Some sys' ->
    reachable_calmly buildArgs sys'.
Proof.
  induction script as [|a script IH]; intros sys sys' R E; simpl in E.
  - now injection E as <-.
  - destruct (touches_input a && negb (Nat.eqb (List.length (in_flight sys)) 0))
      eqn:G; [discriminate|].
    destruct (perform buildArgs a sys) as [sys1|] eqn:E1; [|discriminate].
    eapply IH; [|exact E]. eapply calm_step; eauto.
    intros T. rewrite T in G. simpl in G.
    destruct (in_flight sys); [reflexivity|discriminate].
Qed.

Lemma truthy_shown (x : option string) (url : string) :
  truthy x = Some url -> x <> None.
Proof. destruct x; [discriminate|]. simpl. discriminate. Qed.

(** ** The page *)

(** C2.  [process] calls [setBusy(true)] before anything else, so before
    any call to the engine; the Process button is disabled exactly when the
    busy flag is set or no file is selected; and in every state the page
    can reach at most one run waits on the engine, and while one does the
    button cannot start another. *)
Theorem one_run_at_a_time :
  forall buildArgs : StyleKey -> bool -> list string,
    (forall (W : World) (logger : string -> list Setter) (s : State)
            (w : wstate W) (f : File),
        file s = Some f ->
        exists rest,
          trace (run W (process_of buildArgs s) logger s w)
            = ESet (setBusy true) :: rest) /\
    (forall s : State,
        processDisabled (view s) = true <-> busy s = true \/ file s = None) /\
    (forall sys : Sys,
        reachable buildArgs sys ->
        List.length (in_flight sys) <= 1 /\
        (in_flight sys <> [] -> perform buildArgs PressProcess sys = None)).
Proof.
  intros buildArgs. split; [|split].
  - intros W logger s w f H. unfold process_of, process. rewrite H. simpl.
    eexists; reflexivity.
  - intros s. simpl. unfold isReady.
    destruct (file s), (busy s); simpl; split; intros H; auto;
      try discriminate; destruct H; discriminate.
  - intros sys R. apply reachable_single_flight in R.
    destruct R as [_ [[-> _]|(r & -> & Hb & _)]]; simpl.
    + split; [lia|]. intros H; now elim H.
    + split; [lia|]. intros _. unfold isReady. rewrite Hb.
      now rewrite andb_false_r.
Qed.

Lemma one_run_at_a_time_witness :
  reachable sample_buildArgs working_page /\
  in_flight working_page <> [] /\
  busy (ui working_page) = true /\
  processDisabled (view (ui working_page)) = true /\
  List.length (in_flight working_page) <= 1 /\
  perform sample_buildArgs PressProcess working_page = None.
Proof.
  assert (R : reachable sample_buildArgs working_page).
  { apply (perform_all_reachable sample_buildArgs
             [PickInput [clip_a] "blob:a"; PressProcess] boot);
      [apply reach_boot|vm_compute; reflexivity]. }
  assert (N : in_flight working_page <> []) by discriminate.
  destruct (one_run_at_a_time sample_buildArgs) as (_ & D & P).
  destruct (P working_page R) as [L B].
  split; [exact R|]. split; [exact N|]. split; [reflexivity|].
  split; [apply D; left; reflexivity|]. split; [exact L|exact (B N)].
Defined.

(** C9, as the code has it.  Picking a file (through the input or by a
    drop) stores the file and the object URL made for it, sets the output
    URL to null and leaves busy flag, progress text, style and slow-motion
    flag as they were, so right after the pick no output is previewed.  As
    long as no file is picked, dropped or cleared while a run waits on the
    engine, an output on preview was produced from the file that is
    selected. *)
Theorem picking_a_file_resets_output :
  forall buildArgs : StyleKey -> bool -> list string,
    (forall (f : File) (others : list File) (url : string) (s : State),
        let s' := mkState (Some f) (Some url) None (busy s) (progressText s)
                          (style s) (slowMo s) in
        advance url (onPickFile f) s =
          (s', [ESet (setFile (Some f)); EUrl (FromFile f) url;
                ESet (setInputUrl (Some url)); ESet (setOutputUrl None)], Ret tt) /\
        onFileInput (f :: others) = onPickFile f /\
        onDrop (f :: others) = onPickFile f /\
        outputPreview (view s') = None) /\
    (forall (sys : Sys) (url : string),
        reachable_calmly buildArgs sys ->
        outputPreview (view (ui sys)) = Some url ->
        exists f, output_of sys = Some f /\ file (ui sys) = Some f).
Proof.
  intros buildArgs. split.
  - intros f others url s. repeat split; reflexivity.
  - intros sys url R Hshown. apply calm_output_matches_input in R.
    destruct R as (_ & _ & Hout). apply Hout.
    eapply truthy_shown. exact Hshown.
Qed.

Lemma picking_a_file_resets_output_witness :
  reachable_calmly sample_buildArgs fresh_page /\
  outputPreview (view (ui fresh_page)) = Some "blob:out" /\
  exists f, output_of fresh_page = Some f /\ file (ui fresh_page) = Some f.
Proof.
  assert (R : reachable_calmly sample_buildArgs fresh_page).
  { apply (perform_calmly_reachable sample_buildArgs patient_script boot);
      [apply calm_boot|vm_compute; reflexivity]. }
  assert (S : outputPreview (view (ui fresh_page)) = Some "blob:out")
    by (vm_compute; reflexivity).
  destruct (picking_a_file_resets_output sample_buildArgs) as [_ P].
  split; [exact R|]. split; [exact S|].
  exact (P fresh_page "blob:out" R S).
Defined.

(** C9, as stated, fails: a clip dropped while the engine still works on
    the first one is the selected file when the run publishes its result,
    so the output on preview was produced from the file selected before. *)
Lemma stale_output_after_drop :
  reachable sample_buildArgs stale_page /\
  file (ui stale_page) = Some clip_b /\
  outputPreview (view (ui stale_page)) = Some "blob:out" /\
  output_of stale_page = Some clip_a /\
  clip_a <> clip_b.
Proof.
  split.
  { apply (perform_all_reachable sample_buildArgs impatient_script boot);
      [apply reach_boot|vm_compute; reflexivity]. }
  repeat split; try reflexivity. discriminate.
Qed.

(** ** The theorems at sample inputs *)

Lemma process_without_file_witness :
  file initial = None /\ idle_run = mkOutcome initial (inr tt) [].
Proof.
  split; [reflexivity|].
  exact (process_without_file sample_buildArgs willing_engine no_logger initial
           0 eq_refl).
Defined.

Lemma process_resets_busy_witness :
  file action_pick = Some clip_a /\
  busy (final failing_run) = false /\
  result failing_run = inr tt /\
  busy_writes (trace failing_run) = [true; false] /\
  last (trace failing_run) (ESet (setBusy true)) = ESet (setBusy false).
Proof.
  split; [reflexivity|].
  exact (process_resets_busy sample_buildArgs refusing_engine no_logger
           action_pick 0 clip_a eq_refl).
Defined.

Lemma fallback_once_then_failure_text_witness :
  file action_pick = Some clip_a /\
  exec_calls (trace failing_run) =
    [(sample_buildArgs action true, inl no_filter); (retry_action, inl no_filter)] /\
  progressText (final failing_run) = "Failed: No such filter" /\
  progress_texts (trace failing_run) =
    ["Loading ffmpeg..."; "Preparing input..."; "Applying style...";
     "Failed: No such filter"] /\
  engine_calls (trace failing_run) = 4 /\
  result failing_run = inr tt.
Proof.
  assert (E : exec_calls (trace failing_run) =
              (sample_buildArgs action true, inl no_filter)
                :: [(retry_action, inl no_filter)]) by reflexivity.
  destruct (fallback_once_then_failure_text sample_buildArgs refusing_engine
              no_logger action_pick 0 clip_a _ _ _ eq_refl E)
    as (_ & r2 & Hrest & Hfail).
  injection Hrest as Hr2.
  split; [reflexivity|]. split; [exact E|].
  exact (Hfail no_filter (eq_sym Hr2)).
Defined.


Lemma primary_args_depend_on_selection_only_witness :
  style action_pick = style later_pick /\
  slowMo action_pick = slowMo later_pick /\
  file action_pick <> file later_pick /\
  primary_args (trace failing_run) = Some (sample_buildArgs action true) /\
  primary_args (trace smooth_run) = Some (sample_buildArgs action true) /\
  sample_buildArgs action true = sample_buildArgs action true.
Proof.
  split; [reflexivity|]. split; [reflexivity|]. split; [discriminate|].
  split; [reflexivity|]. split; [reflexivity|].
  exact (primary_args_depend_on_selection_only sample_buildArgs
           refusing_engine willing_engine no_logger no_logger
           action_pick later_pick 0 0 _ _ eq_refl eq_refl eq_refl eq_refl).
Defined.

(** ** More about the page *)

(** X2.  The page is idle exactly when the busy flag is down: in every
    state it can reach, no run waits on the engine if and only if [busy] is false. *)
Theorem idle_page_is_unlocked :
  forall (buildArgs : StyleKey -> bool -> list string) (sys : Sys),
    reachable buildArgs sys ->
    (in_flight sys = [] <-> busy (ui sys) = false).
Proof.
  intros buildArgs sys R. apply reachable_single_flight in R.
  destruct R as [_ [[-> Hb]|(r & -> & Hb & _)]]; rewrite Hb; split;
    intros H; try reflexivity; discriminate.
Qed.

Lemma idle_page_is_unlocked_witness :
  reachable sample_buildArgs stale_page /\
  (in_flight stale_page = [] <-> busy (ui stale_page) = false).
Proof.
  assert (R : reachable sample_buildArgs stale_page).
  { apply (perform_all_reachable sample_buildArgs impatient_script boot);
      [apply reach_boot|vm_compute; reflexivity]. }
  split; [exact R|]. exact (idle_page_is_unlocked sample_buildArgs stale_page R).
Defined.

(** X3.  A run of [process] ends after at most five calls to the engine,
    whatever the engine answers. *)
Theorem process_needs_at_most_five_calls :
  forall (buildArgs : StyleKey -> bool -> list string) (W : World)
         (logger : string -> list Setter) (s : State) (w : wstate W),
    engine_calls (trace (run W (process_of buildArgs s) logger s w)) <= 5.
Proof.
  intros buildArgs W logger s w. destruct (file s) as [f|] eqn:H.
  - open_process s H; lia.
  - unfold process_of, process; rewrite H; simpl; lia.
Qed.

(** ** The failure text on the page *)

(** The progress line is rendered while the busy flag is up and at no
    other time. *)
Lemma progressLine_only_while_busy (s : State) :
  progressLine (view s) = if busy s then Some (progressText s) else None.
Proof. reflexivity. Qed.

(** C1, on the page.  Both invocations are rejected: [process] stores
    ["Failed: No such filter"] as the progress text and lowers the busy flag
    in the same segment, and the progress line is rendered only while the
    flag is up.  Of the pages the script goes through none shows the
    failure text, and the last one shows no progress line at all. *)
Lemma failure_text_is_never_rendered :
  map (fun page => progressLine (view (ui page)))
      (pages_along sample_buildArgs failing_script boot)
    = [None; None; Some "Loading ffmpeg..."; Some "Preparing input...";
       Some "Applying style..."; Some "Applying style..."; None] /\
  in_flight failed_page = [] /\
  progressText (ui failed_page) = "Failed: No such filter" /\
  busy (ui failed_page) = false /\
  progressLine (view (ui failed_page)) = None /\
  processLabel (view (ui failed_page)) = "Process Video".
Proof. repeat split; reflexivity. Qed.

(** X4.  After a run of [process] on a selected file the page renders no
    progress line, whatever the engine answered: the last progress text
    ("Done" or the failure text) is in the state and not on the page. *)
Theorem progress_line_hidden_after_run :
  forall (buildArgs : StyleKey -> bool -> list string) (W : World)
         (logger : string -> list Setter) (s : State) (w : wstate W) (f : File),
    file s = Some f ->
    progressLine (view (final (run W (process_of buildArgs s) logger s w))) = None.
Proof.
  intros buildArgs W logger s w f H. rewrite progressLine_only_while_busy.
  destruct (process_resets_busy_page buildArgs W logger s w f H) as [-> _].
  reflexivity.
Qed.

Lemma progress_line_hidden_after_run_witness :
  file action_pick = Some clip_a /\
  progressText (final failing_run) = "Failed: No such filter" /\
  progressLine (view (final failing_run)) = None.
Proof.
  split; [reflexivity|]. split; [reflexivity|].
  exact (progress_line_hidden_after_run sample_buildArgs refusing_engine
           no_logger action_pick 0 clip_a eq_refl).
Defined.

(** ** What a run of [process] leaves as it found it *)

Lemma deliver_onLog_frame (logs : list string) (s : State) :
  let s' := deliver onLog logs s in
  file s' = file s /\ inputUrl s' = inputUrl s /\ outputUrl s' = outputUrl s /\
  busy s' = busy s /\ style s' = style s /\ slowMo s' = slowMo s.
Proof.
  revert s; induction logs as [|m logs IH]; intros s.
  - unfold deliver; cbn [fold_left]. repeat split; reflexivity.
  - change (deliver onLog (m :: logs) s)
      with (deliver onLog logs (set_all (onLog m) s)).
    pose proof (IH (set_all (onLog m) s)) as (H1 & H2 & H3 & H4 & H5 & H6).
    pose proof (onLog_frame m s) as (F1 & F2 & F3 & F4 & F5 & F6).
    cbv zeta. repeat split; congruence.
Qed.

Lemma deliver_file (logs : list string) (s : State) :
  file (deliver onLog logs s) = file s.
Proof. apply deliver_onLog_frame. Qed.

Lemma deliver_inputUrl (logs : list string) (s : State) :
  inputUrl (deliver onLog logs s) = inputUrl s.
Proof. apply deliver_onLog_frame. Qed.


Lemma deliver_style (logs : list string) (s : State) :
  style (deliver onLog logs s) = style s.
Proof. apply deliver_onLog_frame. Qed.

Lemma deliver_slowMo (logs : list string) (s : State) :
  slowMo (deliver onLog logs s) = slowMo s.
Proof. apply deliver_onLog_frame. Qed.

(** A task that calls run setters only and knows no logger but [onLog]
    leaves the selection alone, whatever the engine answers and logs. *)
Lemma run_keeps_selection (W : World) :
  forall (t : Task unit) (s : State) (w : wstate W),
    every_update run_update t ->
    every_call logs_to_onLog t ->
    let o := run W t onLog s w in
    file (final o) = file s /\ inputUrl (final o) = inputUrl s /\
    style (final o) = style s /\ slowMo (final o) = slowMo s.
Proof.
  induction t as [a|e|u k IH|e k IH|src k IH|c k IH]; intros s w U C; simpl in *.
  - auto.
  - auto.
  - destruct U as [Hu U].
    destruct (IH (set_state u s) w U C) as (H1 & H2 & H3 & H4).
    rewrite H1, H2, H3, H4.
    destruct u as [v|v|[v|]|v|v|v|v]; simpl in Hu; try contradiction; auto.
  - apply IH; assumption.
  - destruct (mint W src w) as [url w']. simpl. apply IH; auto.
  - destruct (settle W c w) as [[logs r] w']. simpl. destruct C as [Hc C].
    assert (L : logger_after c onLog = onLog) by (destruct c; simpl in *; auto).
    rewrite L.
    destruct (IH r (deliver onLog logs s) w' (U r) (C r)) as (H1 & H2 & H3 & H4).
    rewrite H1, H2, H3, H4.
    rewrite deliver_file, deliver_inputUrl, deliver_style, deliver_slowMo. auto.
Qed.

Section RunFacts.

Variable buildArgs : StyleKey -> bool -> list string.

(** X5.  A run of [process] never touches the selection: whatever the
    engine answers and logs, the file, the input URL, the style and the
    slow-motion flag are afterwards what they were before. *)
Theorem process_keeps_selection :
  forall (W : World) (logger : string -> list Setter) (s : State) (w : wstate W),
    let o := run W (process_of buildArgs s) logger s w in
    file (final o) = file s /\
    inputUrl (final o) = inputUrl s /\
    style (final o) = style s /\
    slowMo (final o) = slowMo s.
Proof.
  intros W logger s w. unfold process_of. destruct (file s) as [f|] eqn:H.
  - destruct (process_first_segment buildArgs f (style s) (slowMo s))
      as (rest & -> & _ & U & C).
    simpl in *. destruct (settle W (getFFmpeg onLog) w) as [[logs r] w'].
    simpl. destruct C as [_ C].
    match goal with
    | |- context [run W (rest r) onLog ?s0 w'] =>
        destruct (run_keeps_selection W (rest r) s0 w' (U r) (C r))
          as (H1 & H2 & H3 & H4)
    end.
    rewrite H1, H2, H3, H4.
    rewrite deliver_file, deliver_inputUrl, deliver_style, deliver_slowMo.
    simpl. rewrite H. auto.
  - simpl. rewrite H. auto.
Qed.

(** The [if]/[else if] chain of the retry is the table [fallbackArgs]. *)
Lemma process_by_table (f : File) (k : StyleKey) (m : bool) :
  process buildArgs (Some f) k m =
    process_with f (buildArgs k m) (fallbackArgs k).
Proof. destruct k; reflexivity. Qed.

Ltac open_by_table s Hfile :=
  unfold process_of; rewrite Hfile, process_by_table;
  unfold process_with; simpl; engine_answers.


(** X7.  The calls of a run of [process] on a selected file follow one
    protocol: [getFFmpeg] with [onLog]; then, on the instance it returned,
    [writeInputFile] of the selected file as "input.mp4", [exec] with the
    list of [buildArgs], [exec] with the retry list if that was rejected,
    and [readOutputFile] of "output.mp4"; a rejection of any call but the
    first [exec] ends the sequence. *)
Theorem process_call_protocol :
  forall (W : World) (logger : string -> list Setter) (s : State) (w : wstate W)
         (f : File),
    file s = Some f ->
    follows_protocol f (buildArgs (style s) (slowMo s)) (fallbackArgs (style s))
      (trace (run W (process_of buildArgs s) logger s w)).
Proof.
  intros W logger s w f H. unfold follows_protocol. open_by_table s H;
    first [ split; [reflexivity|simpl; lia]
          | left; split; [reflexivity|simpl; lia]
          | right; left; split; [reflexivity|simpl; lia]
          | right; right; left; split; [reflexivity|simpl; lia]
          | right; right; right; split; [reflexivity|simpl; lia] ].
Qed.

End RunFacts.

(** ** More invariants of the page *)

Lemma advance_keeps_selection :
  forall (t : Task unit) (url : string) (s s' : State) (evs : list Event)
         (t' : Task unit),
    every_update run_update t ->
    advance url t s = (s', evs, t') ->
    file s' = file s /\ inputUrl s' = inputUrl s /\
    style s' = style s /\ slowMo s' = slowMo s.
Proof.
  induction t as [a|e|u k IH|e k IH|src k IH|c k IH]; intros url s s' evs t' U E;
    simpl in *.
  - injection E as <- <- <-. auto.
  - injection E as <- <- <-. auto.
  - destruct (advance url k (set_state u s)) as [[s1 evs1] t1] eqn:E1.
    injection E as <- <- <-. destruct U as [Hu U].
    destruct (IH _ _ _ _ _ U E1) as (H1 & H2 & H3 & H4).
    rewrite H1, H2, H3, H4.
    destruct u as [v|v|[v|]|v|v|v|v]; simpl in Hu; try contradiction; auto.
  - destruct (advance url k s) as [[s1 evs1] t1] eqn:E1.
    injection E as <- <- <-. eapply IH; eauto.
  - destruct (advance url (k url) s) as [[s1 evs1] t1] eqn:E1.
    injection E as <- <- <-. eapply IH; eauto.
  - injection E as <- <- <-. auto.
Qed.

Lemma advance_stages :
  forall (t : Task unit) (shown : Prop) (url : string) (s s' : State)
         (evs : list Event) (t' : Task unit),
    announces_stages t shown ->
    (shown -> steady_text (progressText s)) ->
    advance url t s = (s', evs, t') ->
    announces_stages t' True /\
    (forall c k, t' = Await c k -> steady_text (progressText s')).
Proof.
  induction t as [a|e|u k IH|e k IH|src k IH|c k IH];
    intros shown url s s' evs t' A Hs E; simpl in *.
  - injection E as <- <- <-. split; [exact I|discriminate].
  - injection E as <- <- <-. split; [exact I|discriminate].
  - destruct (advance url k (set_state u s)) as [[s1 evs1] t1] eqn:E1.
    injection E as <- <- <-.
    destruct u;
      try (eapply (IH shown); [exact A| |exact E1]; exact Hs).
    eapply IH; [exact A| |exact E1]. intros Hin; left; exact Hin.
  - destruct (advance url k s) as [[s1 evs1] t1] eqn:E1.
    injection E as <- <- <-. eapply IH; eauto.
  - destruct (advance url (k url) s) as [[s1 evs1] t1] eqn:E1.
    injection E as <- <- <-. eapply IH; eauto.
  - injection E as <- <- <-. destruct A as [Hshown A]. split.
    + split; [exact I|exact A].
    + intros _ _ _. exact (Hs Hshown).
Qed.

Lemma answered_stages (t t' : Task unit) (a : Answer) :
  announces_stages t True -> answered t a = Some t' ->
  announces_stages t' True.
Proof.
  destruct t as [x|e|u k|e k|src k|c k]; simpl; try discriminate.
  intros [_ L] E. destruct (fit c a) as [r|]; [|discriminate].
  injection E as <-. apply L.
Qed.

Lemma not_a_frame_line (m : string) :
  includes "frame=" m = false -> ~ mentions_frame m.
Proof. intros E H. apply includes_cut in H. congruence. Qed.

Section TidyFacts.

Variable buildArgs : StyleKey -> bool -> list string.

Lemma process_first_segment_stages (f : File) (k : StyleKey) (m : bool) :
  exists rest : JsError + FFmpeg -> Task unit,
    process buildArgs (Some f) k m =
      Upd (setBusy true)
        (Upd (setProgressText "Loading ffmpeg...")
           (Await (getFFmpeg onLog) rest)) /\
    every_update run_update (Await (getFFmpeg onLog) rest) /\
    every_call logs_to_onLog (Await (getFFmpeg onLog) rest) /\
    forall r, announces_stages (rest r) True.
Proof.
  eexists. split; [reflexivity|].
  split; [|split]; destruct k; every_path; auto.
Qed.

Lemma tidy_step (a : Action) (sys sys' : Sys) :
  single_flight sys -> tidy sys ->
  perform buildArgs a sys = Some sys' -> tidy sys'.
Proof.
  intros [_ Hone] (Hlog & Hruns & Hwhole & Hsteady) E.
  destruct a as [files url|files url|k|checked| | |i ans url|i m]; simpl in E.
  - injection E as <-. destruct files as [|f files]; simpl;
      erewrite launch_finished by reflexivity.
    + split; [|split; [|split]]; assumption.
    + split; [|split; [|split]]; simpl; try assumption.
      split; discriminate.
  - injection E as <-. destruct files as [|f files]; simpl;
      erewrite launch_finished by reflexivity.
    + split; [|split; [|split]]; assumption.
    + split; [|split; [|split]]; simpl; try assumption.
      split; discriminate.
  - match type of E with (if ?b then _ else _) = _ => destruct b end;
      [|discriminate]. injection E as <-.
    erewrite launch_finished by reflexivity.
    split; [|split; [|split]]; assumption.
  - destruct (StyleKey_eqb _ _); [|discriminate]. injection E as <-.
    erewrite launch_finished by reflexivity.
    split; [|split; [|split]]; assumption.
  - destruct (truthy _); [|discriminate]. injection E as <-.
    erewrite launch_finished by reflexivity.
    split; [|split; [|split]]; simpl; try assumption.
    split; reflexivity.
  - destruct (isReady (ui sys)) eqn:R; [|discriminate]. simpl in E.
    injection E as <-. apply isReady_true in R. destruct R as [[f Hf] Hb].
    unfold process_of. rewrite Hf.
    destruct (process_first_segment_stages f (style (ui sys)) (slowMo (ui sys)))
      as (rest & -> & U & C & A).
    unfold launch; simpl. split; [|split; [|split]]; simpl.
    + apply Forall_app; split; [assumption|]. now constructor.
    + intros r Hr. apply in_app_or in Hr. destruct Hr as [Hr|[<-|[]]].
      * exact (Hruns r Hr).
      * simpl. split; [exact U|]. split; [exact C|]. split; [exact I|exact A].
    + exact Hwhole.
    + intros _. left. simpl. auto.
  - destruct (nth_error (in_flight sys) i) as [r|] eqn:N; [|discriminate].
    destruct (answered (run_task r) ans) as [t|] eqn:A; [|discriminate].
    injection E as <-.
    destruct Hone as [[Hnil _]|(r0 & Hsingle & Hbusy & L & _)].
    { rewrite Hnil in N. destruct i; discriminate. }
    destruct (Hruns r (nth_error_In _ _ N)) as (U & C & S).
    rewrite Hsingle in N. apply remove_nth_single in N. destruct N as [N ->].
    pose proof (answered_lock _ _ _ L A) as L'.
    pose proof (answered_run_update _ _ _ U A) as U'.
    pose proof (answered_calls _ _ _ C A) as C'.
    pose proof (answered_stages _ _ _ S A) as S'.
    unfold launch; simpl. rewrite Hsingle, N.
    destruct (advance url t (ui sys)) as [[s1 evs1] t1] eqn:E1. simpl.
    pose proof (advance_calls _ _ _ _ _ _ _ C' E1) as C1.
    destruct (advance_run_update _ _ _ _ _ _ None None U' E1) as (U1 & _ & _).
    destruct (advance_keeps_selection _ _ _ _ _ _ U' E1) as (F1 & F2 & _ & _).
    destruct (advance_stages _ True _ _ _ _ _ S' (fun _ => Hsteady Hbusy) E1)
      as (S1 & Hshown).
    split; [|split; [|split]]; simpl.
    + apply Forall_app; split; [assumption|]. now apply registered_onLog.
    + intros r' Hr'. apply suspended_In in Hr'. subst r'. simpl. auto.
    + rewrite F1, F2. exact Hwhole.
    + intros Hb1.
      destruct (advance_lock _ _ _ _ _ _ L' E1) as [[_ Hb]|(_ & _ & c & k & ->)].
      * congruence.
      * eapply Hshown; reflexivity.
  - destruct (nth_error (loggers sys) i) as [logger|] eqn:N; [|discriminate].
    injection E as <-.
    apply nth_error_In in N. rewrite Forall_forall in Hlog.
    pose proof (Hlog _ N) as ->. rewrite <- Forall_forall in Hlog.
    destruct (onLog_frame m (ui sys)) as (F1 & F2 & _ & F4 & _).
    split; [|split; [|split]]; simpl; try assumption.
    + rewrite F1, F2. exact Hwhole.
    + rewrite F4. intros Hb.
      destruct (onLog_cases m) as [[Hin ->]|[_ ->]]; simpl.
      * right; exact Hin.
      * exact (Hsteady Hb).
Qed.

Lemma reachable_tidy (sys : Sys) : reachable buildArgs sys -> tidy sys.
Proof.
  induction 1 as [|sys a sys' R IH E].
  - split; [constructor|]. split; [intros r []|]. split; [tauto|discriminate].
  - eapply tidy_step;
      [apply (reachable_single_flight buildArgs); exact R|exact IH|exact E].
Qed.

(** X8.  While the page is busy its progress line shows one of the four
    stage texts or a log line that contains "frame=", in every state the
    page can reach; "Done" is never on it. *)
Theorem busy_page_shows_steady_text :
  forall (sys : Sys) (m : string),
    reachable buildArgs sys ->
    progressLine (view (ui sys)) = Some m ->
    steady_text m /\ m <> "Done".
Proof.
  intros sys m R Hm. apply reachable_tidy in R. destruct R as (_ & _ & _ & Hs).
  simpl in Hm. destruct (busy (ui sys)); [|discriminate].
  injection Hm as <-. specialize (Hs eq_refl). split; [exact Hs|].
  intros Hd. rewrite Hd in Hs. destruct Hs as [Hin|Hf].
  - simpl in Hin. intuition discriminate.
  - revert Hf. apply not_a_frame_line. reflexivity.
Qed.

(** X9.  The selection is the user's: no answer and no log line of the
    engine changes the file, the input URL, the style or the slow-motion
    flag of a page that can be reached. *)
Theorem engine_leaves_selection :
  forall (sys sys' : Sys) (a : Action),
    reachable buildArgs sys ->
    engine_action a = true ->
    perform buildArgs a sys = Some sys' ->
    file (ui sys') = file (ui sys) /\
    inputUrl (ui sys') = inputUrl (ui sys) /\
    style (ui sys') = style (ui sys) /\
    slowMo (ui sys') = slowMo (ui sys).
Proof.
  intros sys sys' a R Ha E. apply reachable_tidy in R.
  destruct R as (Hlog & Hruns & _ & _).
  destruct a as [files url|files url|k|checked| | |i ans url|i m];
    try discriminate Ha; simpl in E.
  - destruct (nth_error (in_flight sys) i) as [r|] eqn:N; [|discriminate].
    destruct (answered (run_task r) ans) as [t|] eqn:A; [|discriminate].
    injection E as <-.
    destruct (Hruns r (nth_error_In _ _ N)) as (U & _ & _).
    pose proof (answered_run_update _ _ _ U A) as U'.
    unfold launch; simpl.
    destruct (advance url t (ui sys)) as [[s1 evs1] t1] eqn:E1. simpl.
    exact (advance_keeps_selection _ _ _ _ _ _ U' E1).
  - destruct (nth_error (loggers sys) i) as [logger|] eqn:N; [|discriminate].
    injection E as <-. simpl.
    apply nth_error_In in N. rewrite Forall_forall in Hlog.
    rewrite (Hlog _ N).
    destruct (onLog_frame m (ui sys)) as (F1 & F2 & _ & _ & F5 & F6). auto.
Qed.

(** X10.  A file and its input URL come and go together: in every state
    the page can reach either both are set or both are null, so the Clear
    button and the input preview are there only for a selected file. *)
Theorem selection_is_whole :
  forall sys : Sys,
    reachable buildArgs sys ->
    (file (ui sys) = None <-> inputUrl (ui sys) = None) /\
    (clearButton (view (ui sys)) = true -> fileNamePill (view (ui sys)) <> None) /\
    (inputPreview (view (ui sys)) <> None -> file (ui sys) <> None).
Proof.
  intros sys R. apply reachable_tidy in R. destruct R as (_ & _ & Hw & _).
  split; [exact Hw|]. simpl. split.
  - destruct (inputUrl (ui sys)) as [u|]; [|discriminate].
    intros _. destruct (file (ui sys)); [discriminate|].
    destruct Hw as [Hw _]. specialize (Hw eq_refl). discriminate.
  - intros Hp Hf. apply Hw in Hf. rewrite Hf in Hp. now apply Hp.
Qed.

End TidyFacts.

(** ** The controls *)

(** X11.  Pressing Clear empties the selection and nothing else: file,
    input URL and output URL become null, busy flag, progress text, style
    and slow-motion flag stay, a run in flight stays in flight, and on the
    new page neither Clear nor Process can be pressed. *)
Theorem clear_empties_the_selection_only :
  forall (buildArgs : StyleKey -> bool -> list string) (sys sys' : Sys),
    perform buildArgs PressClear sys = Some sys' ->
    ui sys' = mkState None None None (busy (ui sys)) (progressText (ui sys))
                      (style (ui sys)) (slowMo (ui sys)) /\
    in_flight sys' = in_flight sys /\
    perform buildArgs PressClear sys' = None /\
    perform buildArgs PressProcess sys' = None.
Proof.
  intros buildArgs sys sys' E. simpl in E.
  destruct (truthy (inputUrl (ui sys))); [|discriminate]. injection E as <-.
  erewrite launch_finished by reflexivity. simpl. repeat split.
Qed.

(** X12.  A pick or a drop that carries no file changes nothing on the
    page, and one that carries several files is the pick of the first. *)
Theorem pick_without_file_changes_nothing :
  forall (buildArgs : StyleKey -> bool -> list string) (sys : Sys) (url : string),
    perform buildArgs (PickInput [] url) sys = Some sys /\
    perform buildArgs (DropFiles [] url) sys = Some sys /\
    forall (f : File) (others : list File),
      perform buildArgs (PickInput (f :: others) url) sys =
        perform buildArgs (PickInput [f] url) sys /\
      perform buildArgs (DropFiles (f :: others) url) sys =
        perform buildArgs (PickInput [f] url) sys.
Proof.
  intros buildArgs [s runs logs g] url. simpl. unfold launch. simpl.
  rewrite !app_nil_r. repeat split.
Qed.

(** X13.  A log line of the engine changes nothing but the progress text,
    and shows only on a busy page: when the page is idle what is rendered
    stays the same, when it is busy a line with "frame=" becomes the
    progress line, and a line without it changes no state at all. *)
Theorem log_line_shows_only_while_busy :
  forall (buildArgs : StyleKey -> bool -> list string) (sys sys' : Sys)
         (i : nat) (m : string),
    reachable buildArgs sys ->
    perform buildArgs (LogLine i m) sys = Some sys' ->
    (busy (ui sys) = false -> view (ui sys') = view (ui sys)) /\
    (busy (ui sys) = true -> mentions_frame m ->
       progressLine (view (ui sys')) = Some m) /\
    (~ mentions_frame m -> ui sys' = ui sys) /\
    in_flight sys' = in_flight sys.
Proof.
  intros buildArgs sys sys' i m R E. apply reachable_single_flight in R.
  destruct R as [Hlog _]. simpl in E.
  destruct (nth_error (loggers sys) i) as [logger|] eqn:N; [|discriminate].
  injection E as <-. simpl.
  apply nth_error_In in N. rewrite Forall_forall in Hlog. rewrite (Hlog _ N).
  destruct (onLog_cases m) as [[Hin ->]|[Hout ->]].
  - split; [|split; [|split]]; try reflexivity.
    + intros Hb. unfold view, isReady. simpl. rewrite Hb. reflexivity.
    + intros Hb _. simpl. rewrite Hb. reflexivity.
    + intros Hn. now elim Hn.
  - split; [|split; [|split]]; try reflexivity.
    intros _ Hin. now elim Hout.
Qed.

(** X14.  Every style can be processed with either value of the
    slow-motion flag: the flag is set while [cinematic] is selected and
    stays when another style is chosen, for which the checkbox is not
    rendered. *)
Theorem every_selection_can_be_processed :
  forall (buildArgs : StyleKey -> bool -> list string) (f : File)
         (k : StyleKey) (slow : bool),
    exists sys : Sys,
      perform_all buildArgs (selecting_script f k slow) boot = Some sys /\
      reachable buildArgs sys /\
      processDisabled (view (ui sys)) = false /\
      process_of buildArgs (ui sys) = process buildArgs (Some f) k slow /\
      (k <> cinematic -> slowMoCheckbox (view (ui sys)) = None).
Proof.
  intros buildArgs f k slow.
  assert (E : exists sys,
             perform_all buildArgs (selecting_script f k slow) boot = Some sys /\
             ui sys = mkState (Some f) (Some "blob:in") None false "" k slow).
  { destruct k; eexists; split; reflexivity. }
  destruct E as (sys & E & Hui). exists sys. split; [exact E|]. split.
  { exact (perform_all_reachable buildArgs _ boot sys (reach_boot buildArgs) E). }
  rewrite Hui. split; [reflexivity|]. split; [reflexivity|].
  intros Hk. destruct k; try reflexivity. now elim Hk.
Qed.

(** X15.  The retry of [process] is a table: the [if]/[else if] chain
    calls [exec] once, with [fallbackArgs] of the style; the four lists are
    pairwise different, and they differ in the filter only, which always
    starts with the pixel format: each reads "input.mp4", encodes with
    mpeg4 without audio and writes "output.mp4". *)
Theorem retry_lists_differ_in_filter_only :
  (forall (ffmpeg : FFmpeg) (k : StyleKey),
      retry ffmpeg k = await (ffmpeg_exec ffmpeg (fallbackArgs k))) /\
  (forall k : StyleKey,
      exists filter,
        fallbackArgs k = retry_list filter /\
        prefix "format=yuv420p," filter = true) /\
  (forall k1 k2 : StyleKey, fallbackArgs k1 = fallbackArgs k2 -> k1 = k2).
Proof.
  split; [|split].
  - intros ffmpeg k. destruct k; reflexivity.
  - intros k. destruct k; eexists; split; reflexivity.
  - intros k1 k2. destruct k1, k2; intros E; try reflexivity;
      apply (f_equal (fun l => nth 3 l "")) in E; discriminate E.
Qed.

(** X16.  Nothing but the Process button raises the busy flag and nothing
    but an answer of the engine lowers it: no pick, drop, Clear, style
    choice or log line changes it, so a busy page stays busy until the
    engine settles the pending call. *)
Theorem busy_changes_by_process_and_engine_only :
  forall (buildArgs : StyleKey -> bool -> list string) (sys sys' : Sys)
         (a : Action),
    reachable buildArgs sys ->
    perform buildArgs a sys = Some sys' ->
    busy (ui sys') <> busy (ui sys) ->
    (a = PressProcess /\ busy (ui sys') = true) \/
    (exists i ans url, a = Settle i ans url /\ busy (ui sys') = false).
Proof.
  intros buildArgs sys sys' a R E Hb.
  pose proof (reachable_single_flight buildArgs sys R) as [Hlog Hone].
  destruct a as [files url|files url|k|checked| | |i ans url|i m]; simpl in E.
  - injection E as <-. exfalso. apply Hb.
    destruct files as [|f files]; reflexivity.
  - injection E as <-. exfalso. apply Hb.
    destruct files as [|f files]; reflexivity.
  - match type of E with (if ?b then _ else _) = _ => destruct b end;
      [|discriminate]. injection E as <-. exfalso. apply Hb. reflexivity.
  - destruct (StyleKey_eqb _ _); [|discriminate]. injection E as <-.
    exfalso. apply Hb. reflexivity.
  - destruct (truthy _); [|discriminate]. injection E as <-.
    exfalso. apply Hb. reflexivity.
  - left. split; [reflexivity|].
    destruct (isReady (ui sys)) eqn:Rdy; [|discriminate]. simpl in E.
    injection E as <-. apply isReady_true in Rdy. destruct Rdy as [[f Hf] _].
    unfold process_of. rewrite Hf.
    destruct (process_first_segment buildArgs f (style (ui sys)) (slowMo (ui sys)))
      as (rest & -> & _). reflexivity.
  - right. exists i, ans, url. split; [reflexivity|].
    destruct (nth_error (in_flight sys) i) as [r|] eqn:N; [|discriminate].
    destruct (answered (run_task r) ans) as [t|] eqn:A; [|discriminate].
    injection E as <-.
    destruct Hone as [[Hnil _]|(r0 & Hsingle & Hbusy & L & _)].
    { rewrite Hnil in N. destruct i; discriminate. }
    rewrite Hsingle in N. apply remove_nth_single in N. destruct N as [_ ->].
    pose proof (answered_lock _ _ _ L A) as L'.
    unfold launch in *; simpl in *.
    destruct (advance url t (ui sys)) as [[s1 evs1] t1] eqn:E1. simpl in *.
    destruct (advance_lock _ _ _ _ _ _ L' E1) as [[_ H0]|(Hsame & _)].
    + exact H0.
    + now elim Hb.
  - destruct (nth_error (loggers sys) i) as [logger|] eqn:N; [|discriminate].
    injection E as <-. exfalso. apply Hb. simpl.
    apply nth_error_In in N. rewrite Forall_forall in Hlog.
    rewrite (Hlog _ N). apply onLog_busy.
Qed.

(** ** The sample pages *)

Lemma working_page_reachable : reachable sample_buildArgs working_page.
Proof.
  apply (perform_all_reachable sample_buildArgs
           [PickInput [clip_a] "blob:a"; PressProcess] boot);
    [apply reach_boot|vm_compute; reflexivity].
Qed.

Lemma picked_page_reachable : reachable sample_buildArgs picked_page.
Proof.
  apply (perform_all_reachable sample_buildArgs
           [PickInput [clip_a] "blob:a"] boot);
    [apply reach_boot|vm_compute; reflexivity].
Qed.


Lemma process_call_protocol_witness :
  file action_pick = Some clip_a /\
  follows_protocol clip_a (sample_buildArgs action true) (fallbackArgs action)
    (trace failing_run).
Proof.
  split; [reflexivity|].
  exact (process_call_protocol sample_buildArgs refusing_engine no_logger
           action_pick 0 clip_a eq_refl).
Defined.

Lemma busy_page_shows_steady_text_witness :
  reachable sample_buildArgs working_page /\
  progressLine (view (ui working_page)) = Some "Loading ffmpeg..." /\
  steady_text "Loading ffmpeg..." /\
  "Loading ffmpeg..." <> "Done".
Proof.
  assert (P : progressLine (view (ui working_page)) = Some "Loading ffmpeg...")
    by (vm_compute; reflexivity).
  split; [exact working_page_reachable|]. split; [exact P|].
  exact (busy_page_shows_steady_text sample_buildArgs working_page
           "Loading ffmpeg..." working_page_reachable P).
Defined.

Lemma engine_leaves_selection_witness :
  reachable sample_buildArgs working_page /\
  engine_action load_answer = true /\
  perform sample_buildArgs load_answer working_page = Some loaded_page /\
  file (ui loaded_page) = file (ui working_page) /\
  inputUrl (ui loaded_page) = inputUrl (ui working_page) /\
  style (ui loaded_page) = style (ui working_page) /\
  slowMo (ui loaded_page) = slowMo (ui working_page).
Proof.
  assert (E : perform sample_buildArgs load_answer working_page = Some loaded_page)
    by (vm_compute; reflexivity).
  split; [exact working_page_reachable|]. split; [reflexivity|].
  split; [exact E|].
  exact (engine_leaves_selection sample_buildArgs working_page loaded_page
           load_answer working_page_reachable eq_refl E).
Defined.

Lemma selection_is_whole_witness :
  reachable sample_buildArgs working_page /\
  (file (ui working_page) = None <-> inputUrl (ui working_page) = None) /\
  (clearButton (view (ui working_page)) = true ->
     fileNamePill (view (ui working_page)) <> None) /\
  (inputPreview (view (ui working_page)) <> None ->
     file (ui working_page) <> None).
Proof.
  split; [exact working_page_reachable|].
  exact (selection_is_whole sample_buildArgs working_page working_page_reachable).
Defined.

Lemma clear_empties_the_selection_only_witness :
  perform sample_buildArgs PressClear fresh_page = Some cleared_page /\
  ui cleared_page =
    mkState None None None (busy (ui fresh_page)) (progressText (ui fresh_page))
            (style (ui fresh_page)) (slowMo (ui fresh_page)) /\
  in_flight cleared_page = in_flight fresh_page /\
  perform sample_buildArgs PressClear cleared_page = None /\
  perform sample_buildArgs PressProcess cleared_page = None.
Proof.
  assert (E : perform sample_buildArgs PressClear fresh_page = Some cleared_page)
    by (vm_compute; reflexivity).
  split; [exact E|].
  exact (clear_empties_the_selection_only sample_buildArgs fresh_page
           cleared_page E).
Defined.

Lemma log_line_shows_only_while_busy_witness :
  reachable sample_buildArgs working_page /\
  perform sample_buildArgs frame_line working_page = Some logged_page /\
  busy (ui working_page) = true /\
  progressLine (view (ui logged_page)) = Some "frame=   24 fps=12".
Proof.
  assert (E : perform sample_buildArgs frame_line working_page = Some logged_page)
    by (vm_compute; reflexivity).
  assert (M : mentions_frame "frame=   24 fps=12")
    by (apply includes_cut; reflexivity).
  split; [exact working_page_reachable|]. split; [exact E|].
  split; [vm_compute; reflexivity|].
  exact (proj1 (proj2 (log_line_shows_only_while_busy sample_buildArgs
                         working_page logged_page 0 "frame=   24 fps=12"
                         working_page_reachable E))
               ltac:(vm_compute; reflexivity) M).
Defined.

Lemma busy_changes_by_process_and_engine_only_witness :
  reachable sample_buildArgs picked_page /\
  perform sample_buildArgs PressProcess picked_page = Some working_page /\
  busy (ui working_page) <> busy (ui picked_page) /\
  ((PressProcess = PressProcess /\ busy (ui working_page) = true) \/
   (exists i ans url,
      PressProcess = Settle i ans url /\ busy (ui working_page) = false)).
Proof.
  assert (E : perform sample_buildArgs PressProcess picked_page = Some working_page)
    by (vm_compute; reflexivity).
  assert (D : busy (ui working_page) <> busy (ui picked_page))
    by (vm_compute; discriminate).
  split; [exact picked_page_reachable|]. split; [exact E|]. split; [exact D|].
  exact (busy_changes_by_process_and_engine_only sample_buildArgs picked_page
           working_page PressProcess picked_page_reachable E D).
Defined.

(** ** Log lines and the progress text *)

Lemma listening_step (buildArgs : StyleKey -> bool -> list string)
  (a : Action) (sys sys' : Sys) :
  listening sys -> perform buildArgs a sys = Some sys' -> listening sys'.
Proof.
  intros L E.
  destruct a as [files url|files url|k|checked| | |i ans url|i m]; simpl in E.
  - injection E as <-. destruct files as [|f files]; simpl;
      erewrite launch_finished by reflexivity; exact L.
  - injection E as <-. destruct files as [|f files]; simpl;
      erewrite launch_finished by reflexivity; exact L.
  - match type of E with (if ?b then _ else _) = _ => destruct b end;
      [|discriminate]. injection E as <-.
    erewrite launch_finished by reflexivity. exact L.
  - destruct (StyleKey_eqb _ _); [|discriminate]. injection E as <-.
    erewrite launch_finished by reflexivity. exact L.
  - destruct (truthy _); [|discriminate]. injection E as <-.
    erewrite launch_finished by reflexivity. exact L.
  - destruct (isReady (ui sys)) eqn:R; [|discriminate]. simpl in E.
    injection E as <-. apply isReady_true in R. destruct R as [[f Hf] _].
    unfold process_of. rewrite Hf.
    destruct (process_first_segment buildArgs f (style (ui sys)) (slowMo (ui sys)))
      as (rest & -> & _).
    unfold listening, launch; simpl. intros _ H. apply app_eq_nil in H.
    destruct H as [_ H]. discriminate H.
  - destruct (nth_error (in_flight sys) i) as [r|] eqn:N; [|discriminate].
    destruct (answered (run_task r) ans) as [t|] eqn:A; [|discriminate].
    injection E as <-.
    assert (Hlog : loggers sys <> []).
    { apply L. intros H. rewrite H in N. destruct i; discriminate. }
    unfold listening, launch; simpl.
    destruct (advance url t (ui sys)) as [[s1 evs1] t1]. simpl.
    intros _ H. apply app_eq_nil in H. destruct H as [H _]. now apply Hlog.
  - destruct (nth_error (loggers sys) i) as [logger|] eqn:N; [|discriminate].
    injection E as <-. exact L.
Qed.

Lemma reachable_listening (buildArgs : StyleKey -> bool -> list string)
  (sys : Sys) :
  reachable buildArgs sys -> listening sys.
Proof.
  induction 1 as [|sys a sys' _ IH E].
  - intros H; now elim H.
  - eapply listening_step; eauto.
Qed.

(** C7.  The progress text is scraped from the log lines of the engine.
    The logger [process] hands to [getFFmpeg] sets the progress text to a
    line exactly when the line contains ["frame="] and leaves the whole
    state alone otherwise.  On the page: while a run waits, the engine
    holds a logger; and when it hands a line to a logger it was given, the
    progress text becomes that line if the line contains ["frame="], and
    no state changes if it does not; so the text is that line afterwards if
    and only if the line contains ["frame="] or was the text already. *)
Theorem progress_text_scraped_from_frame_lines :
  forall buildArgs : StyleKey -> bool -> list string,
    (forall (W : World) (logger : string -> list Setter) (s : State)
            (w : wstate W) (f : File),
        file s = Some f ->
        exists handed : string -> list Setter,
          handed_logger (trace (run W (process_of buildArgs s) logger s w))
            = Some handed /\
          forall (m : string) (st : State),
            (mentions_frame m ->
               progressText (deliver handed [m] st) = m /\
               deliver handed [m] st = set_state (setProgressText m) st) /\
            (~ mentions_frame m -> deliver handed [m] st = st)) /\
    (forall sys : Sys,
        reachable buildArgs sys ->
        in_flight sys <> [] ->
        exists logger, nth_error (loggers sys) 0 = Some logger) /\
    (forall (sys sys' : Sys) (i : nat) (m : string),
        reachable buildArgs sys ->
        perform buildArgs (LogLine i m) sys = Some sys' ->
        (mentions_frame m ->
           progressText (ui sys') = m /\
           (busy (ui sys) = true -> progressLine (view (ui sys')) = Some m)) /\
        (~ mentions_frame m -> ui sys' = ui sys) /\
        (progressText (ui sys') = m <->
           mentions_frame m \/ progressText (ui sys) = m)).
Proof.
  intros buildArgs. split; [|split].
  - intros W logger s w f H. exists onLog. split.
    + unfold process_of.
      destruct (process_first_segment buildArgs f (style s) (slowMo s))
        as (rest & E & _).
      rewrite H, E. simpl.
      destruct (settle W (getFFmpeg onLog) w) as [[logs r] w']. reflexivity.
    + intros m st. unfold deliver; cbn [fold_left].
      destruct (onLog_cases m) as [[Hin ->]|[Hout ->]].
      * split; [intros _; split; reflexivity|intros Hn; now elim Hn].
      * split; [intros Hin; now elim Hout|reflexivity].
  - intros sys R Hrun. apply reachable_listening in R. specialize (R Hrun).
    destruct (loggers sys) as [|logger rest]; [now elim R|].
    exists logger. reflexivity.
  - intros sys sys' i m R E. apply reachable_single_flight in R.
    destruct R as [Hlog _]. simpl in E.
    destruct (nth_error (loggers sys) i) as [logger|] eqn:N; [|discriminate].
    injection E as <-. simpl.
    apply nth_error_In in N. rewrite Forall_forall in Hlog. rewrite (Hlog _ N).
    destruct (onLog_cases m) as [[Hin ->]|[Hout ->]].
    + split; [|split].
      * intros _. split; [reflexivity|]. intros Hb. simpl. rewrite Hb.
        reflexivity.
      * intros Hn. now elim Hn.
      * simpl. split; [intros _; left; exact Hin|reflexivity].
    + split; [|split].
      * intros Hin. now elim Hout.
      * reflexivity.
      * simpl. split; [intros H; right; exact H|].
        intros [Hin|H]; [now elim Hout|exact H].
Qed.

Lemma progress_text_scraped_from_frame_lines_witness :
  reachable sample_buildArgs working_page /\
  in_flight working_page <> [] /\
  perform sample_buildArgs frame_line working_page = Some logged_page /\
  perform sample_buildArgs size_line working_page = Some unmoved_page /\
  mentions_frame "frame=   24 fps=12" /\
  ~ mentions_frame "video:1kB audio:0kB" /\
  progressText (ui working_page) = "Loading ffmpeg..." /\
  progressText (ui logged_page) = "frame=   24 fps=12" /\
  progressLine (view (ui logged_page)) = Some "frame=   24 fps=12" /\
  ui unmoved_page = ui working_page /\
  (exists logger, nth_error (loggers working_page) 0 = Some logger) /\
  (exists handed,
     handed_logger (trace smooth_run) = Some handed /\
     progressText (deliver handed ["frame=   24 fps=12"] initial)
       = "frame=   24 fps=12").
Proof.
  assert (N : in_flight working_page <> []) by (vm_compute; discriminate).
  assert (E1 : perform sample_buildArgs frame_line working_page = Some logged_page)
    by (vm_compute; reflexivity).
  assert (E2 : perform sample_buildArgs size_line working_page = Some unmoved_page)
    by (vm_compute; reflexivity).
  assert (M1 : mentions_frame "frame=   24 fps=12")
    by (apply includes_cut; reflexivity).
  assert (M2 : ~ mentions_frame "video:1kB audio:0kB")
    by (apply not_a_frame_line; reflexivity).
  assert (B : busy (ui working_page) = true) by (vm_compute; reflexivity).
  destruct (progress_text_scraped_from_frame_lines sample_buildArgs)
    as (Hrun & Hlistening & Hpage).
  destruct (Hpage working_page logged_page 0 "frame=   24 fps=12"
              working_page_reachable E1) as (Hframe & _ & _).
  destruct (Hpage working_page unmoved_page 0 "video:1kB audio:0kB"
              working_page_reachable E2) as (_ & Hsilent & _).
  destruct (Hrun willing_engine no_logger later_pick 0 clip_b eq_refl)
    as (handed & Hhanded & Hscrape).
  split; [exact working_page_reachable|]. split; [exact N|].
  split; [exact E1|]. split; [exact E2|]. split; [exact M1|].
  split; [exact M2|]. split; [vm_compute; reflexivity|].
  split; [exact (proj1 (Hframe M1))|].
  split; [exact (proj2 (Hframe M1) B)|].
  split; [exact (Hsilent M2)|].
  split; [exact (Hlistening working_page working_page_reachable N)|].
  exists handed. split; [exact Hhanded|].
  exact (proj1 (proj1 (Hscrape "frame=   24 fps=12" initial) M1)).
Defined.
